(** * Review Booster: the document store of [server.js]

    A shallow embedding of the JSON document store implemented by the
    Express handlers of [server.js] (seed loading, client documents, review
    list updates, directory listing), of its other routes and of the
    migration script, followed by the properties of the specification that
    were checked against it and by further properties of the code.

    Conventions of the embedding.
    - A JavaScript value read from or written to disk is a [json] value;
      [undefined] is [None] in [option json].
    - The data directory is a finite map from path strings to file contents.
      A file whose content cannot be read as JSON (syntax error, directory,
      permission error) is [Unreadable]: [fs.readJson] throws on it.
    - [path.join] is the POSIX one of Node.js.
    - A handler is a function from the disk and the request to the response
      and the disk after the request.  The outcome of the single
      [fs.writeJson] a handler may perform is an input ([wok]), so is the
      value drawn by [Math.random].
    - A JSON object is a finite map from property names to values; the
      order of its properties, which no handler reads, is left out.  A
      JSON number is an integer: the handlers only test numbers for
      truthiness and equality, where a fraction behaves as any other
      non-zero number.
    - Strings are sequences of characters; one character of a [string]
      stands for one UTF-16 code unit of the JavaScript string. *)

From Stdlib Require Import ZArith Lia Bool Ascii String DecimalString.
From stdpp Require Import base option list gmap strings.

#[local] Set Warnings "-register-all".

Local Open Scope string_scope.
Local Open Scope Z_scope.
Local Open Scope list_scope.

(** ** JSON values and the JavaScript operations the handlers apply to them *)

Inductive json : Type :=
  | JNull
  | JBool (b : bool)
  | JNum (n : Z)
  | JStr (s : string)
  | JArr (l : list json)
  | JObj (f : gmap string json).

(** [Boolean(v)]: what [!v], [a && b] and [a || b] test. *)
Definition truthy (v : json) : bool :=
  match v with
  | JNull => false
  | JBool b => b
  | JNum n => negb (n =? 0)
  | JStr s => negb (String.eqb s "")
  | JArr _ => true
  | JObj _ => true
  end.

Definition truthy_v (v : option json) : bool :=
  match v with
  | Some j => truthy j
  | None => false
  end.

(** [data.k] for the property names the handlers read ([reviews],
    [clientId], [clientName]): only a JSON object has them.  The caller has
    excluded [null], on which the access throws. *)
Definition prop (data : json) (k : string) : option json :=
  match data with
  | JObj f => f !! k
  | _ => None
  end.

(** [data.k = v] as it shows in [JSON.stringify(data)]: on an array the new
    property is not serialised, on a primitive the assignment is dropped
    (the file is not in strict mode). *)
Definition set_prop (data : json) (k : string) (v : json) : json :=
  match data with
  | JObj f => JObj (<[k := v]> f)
  | _ => data
  end.

Definition index_key (i : nat) : string :=
  NilZero.string_of_uint (Nat.to_uint i).

Fixpoint indexed {A : Type} (i : nat) (l : list A) : list (string * A) :=
  match l with
  | [] => []
  | x :: rest => (index_key i, x) :: indexed (S i) rest
  end.

Fixpoint chars (s : string) : list json :=
  match s with
  | EmptyString => []
  | String c rest => JStr (String c EmptyString) :: chars rest
  end.

(** The own enumerable properties copied by [{...v}]. *)
Definition own_props (v : json) : gmap string json :=
  match v with
  | JObj f => f
  | JArr l => list_to_map (indexed 0 l)
  | JStr s => list_to_map (indexed 0 (chars s))
  | _ => ∅
  end.

(** [{...a, ...b}]: the properties of [b], then those of [a] that [b] does
    not have. *)
Definition spread (a b : gmap string json) : gmap string json := b ∪ a.

(** [a === b] between a value of the request and a value read from disk:
    primitives compare by value, arrays and objects by identity, and the two
    come from different parses. *)
Definition strict_eq (a b : json) : bool :=
  match a, b with
  | JNull, JNull => true
  | JBool x, JBool y => Bool.eqb x y
  | JNum x, JNum y => x =? y
  | JStr x, JStr y => String.eqb x y
  | _, _ => false
  end.

(** [l.indexOf(x)], [None] for [-1]. *)
Fixpoint indexOf (l : list json) (x : json) : option nat :=
  match l with
  | [] => None
  | y :: rest =>
      if strict_eq y x then Some 0%nat else S <$> indexOf rest x
  end.

(** [l.splice(i, 1)] for [i] in range. *)
Definition splice1 (l : list json) (i : nat) : list json :=
  take i l ++ drop (S i) l.

(** The operand of an array operation on [data.reviews || []]; [None] when
    the stored value is truthy and not an array, where JavaScript coerces or
    throws and this development says nothing. *)
Definition reviews_or_empty (rv : option json) : option (list json) :=
  match rv with
  | None => Some []
  | Some (JArr l) => Some l
  | Some v => if truthy v then None else Some []
  end.

(** ** Strings *)

Definition endsWith (s suffix : string) : bool :=
  let n := String.length s in
  let m := String.length suffix in
  (m <=? n)%nat && String.eqb (substring (n - m) m s) suffix.

(** [s.replace(pat, "")] with a string pattern: the first occurrence goes. *)
Definition replace_first (s pat : string) : string :=
  match index 0 pat s with
  | Some i =>
      substring 0 i s +:+
      substring (i + String.length pat)
                (String.length s - (i + String.length pat)) s
  | None => s
  end.

Fixpoint contains_slash (s : string) : bool :=
  match s with
  | EmptyString => false
  | String c rest => Ascii.eqb c "/" || contains_slash rest
  end.

(** ** [path.join] (POSIX) *)

Module Path.

(** [s.split("/")]. *)
Fixpoint segments (s : string) : list string :=
  match s with
  | EmptyString => [EmptyString]
  | String c rest =>
      if Ascii.eqb c "/" then EmptyString :: segments rest
      else match segments rest with
           | seg :: more => String c seg :: more
           | [] => [String c EmptyString]
           end
  end.

(** One step of [normalizeString]; [stack] holds the kept segments, the
    last one first. *)
Definition step (allowAboveRoot : bool) (stack : list string)
    (seg : string) : list string :=
  if String.eqb seg "" || String.eqb seg "." then stack
  else if String.eqb seg ".." then
    match stack with
    | top :: below =>
        if String.eqb top ".." then
          (if allowAboveRoot then ".." :: stack else stack)
        else below
    | [] => if allowAboveRoot then [".."] else []
    end
  else seg :: stack.

Definition normalizeString (segs : list string) (allowAboveRoot : bool)
  : list string :=
  rev (fold_left (step allowAboveRoot) segs []).

Fixpoint join_segments (segs : list string) : string :=
  match segs with
  | [] => ""
  | [seg] => seg
  | seg :: rest => seg +:+ "/" +:+ join_segments rest
  end.

Definition isAbsolute (p : string) : bool :=
  match p with
  | String c _ => Ascii.eqb c "/"
  | EmptyString => false
  end.

Definition normalize (p : string) : string :=
  if String.eqb p "" then "."
  else
    let abs := isAbsolute p in
    let trailing := endsWith p "/" in
    let q := join_segments (normalizeString (segments p) (negb abs)) in
    if String.eqb q "" then
      (if abs then "/" else if trailing then "./" else ".")
    else
      let q := if trailing then q +:+ "/" else q in
      if abs then "/" +:+ q else q.

(** [path.join(a, b)]. *)
Definition join (a b : string) : string :=
  let joined :=
    if String.eqb a "" then b
    else if String.eqb b "" then a
    else a +:+ "/" +:+ b in
  if String.eqb joined "" then "." else normalize joined.

End Path.

(** ** IEEE 754 binary64 arithmetic of [Math.floor(Math.random() * n)]

    A non-negative binary64 number below [2^53] is written as the integer
    [x] with value [x * 2^-1074]: every such number is a multiple of the
    smallest subnormal [2^-1074]. *)

Module Binary64.

Definition unit_exp : Z := 1074.
Definition one : Z := 2 ^ unit_exp.

(** Round to nearest, ties to even, on 53 significant bits.  Below
    [2^53] units every integer is a binary64 number. *)
Definition round (x : Z) : Z :=
  if x <? 2 ^ 53 then x
  else
    let s := Z.log2 x - 52 in
    let q := x / 2 ^ s in
    let r := x mod 2 ^ s in
    let half := 2 ^ (s - 1) in
    if r <? half then q * 2 ^ s
    else if half <? r then (q + 1) * 2 ^ s
    else if Z.even q then q * 2 ^ s
    else (q + 1) * 2 ^ s.

(** The values [Math.random()] may return: binary64 numbers in [0, 1). *)
Definition unit_double (r : Z) : bool :=
  (0 <=? r) && (r <? one) && (round r =? r).

(** [Math.floor(r * n)] for an array length [n] (below [2^32], so [n] is
    itself a binary64 number and the product is rounded once). *)
Definition floor_mul (r : Z) (n : nat) : Z :=
  round (r * Z.of_nat n) / one.

End Binary64.

(** ** The disk *)

Inductive content : Type :=
  | Unreadable
  | Parsed (j : json).

Abbreviation disk := (gmap string content).

(** [fs.pathExists(p)]. *)
Definition pathExists (d : disk) (p : string) : bool :=
  match d !! p with
  | Some _ => true
  | None => false
  end.

(** [fs.readJson(p)]; [None] when it throws. *)
Definition readJson (d : disk) (p : string) : option json :=
  match d !! p with
  | Some (Parsed j) => Some j
  | Some Unreadable => None
  | None => None
  end.

(** The name of [p] inside the directory [dir], when [p] is directly in it. *)
Definition entry_name (dir p : string) : option string :=
  let pre := dir +:+ "/" in
  if String.prefix pre p then
    let name :=
      substring (String.length pre) (String.length p - String.length pre) p in
    if String.eqb name "" || contains_slash name then None else Some name
  else None.

(** [fs.readdir(dir)]. *)
Definition readdir (d : disk) (dir : string) : list string :=
  omap (fun kv => entry_name dir (fst kv)) (map_to_list d).

(** ** Responses *)

Inductive response : Type :=
  | Respond (status : Z) (body : json).

Definition status_of (r : response) : Z :=
  match r with Respond st _ => st end.

Definition message (text : string) : json :=
  JObj {[ "message" := JStr text ]}.

(** ** Request validation: [clientUpdateSchema] *)

Definition is_hex_digit (c : ascii) : bool :=
  let n := nat_of_ascii c in
  ((48 <=? n) && (n <=? 57) || (65 <=? n) && (n <=? 70)
   || (97 <=? n) && (n <=? 102))%nat.

Fixpoint all_chars (p : ascii -> bool) (s : string) : bool :=
  match s with
  | EmptyString => true
  | String c rest => p c && all_chars p rest
  end.

(** [/^#[0-9a-fA-F]{6}$/]. *)
Definition is_hex_color (s : string) : bool :=
  match s with
  | String c rest =>
      Ascii.eqb c "#" && (String.length rest =? 6)%nat
      && all_chars is_hex_digit rest
  | EmptyString => false
  end.

Definition mem_string (k : string) (l : list string) : bool :=
  existsb (String.eqb k) l.

(** A string key of a Joi object schema: the value is a string passing
    [ok]; a missing key passes when it is optional. *)
Definition string_key (body : gmap string json) (k : string)
    (ok : string -> bool) (required : bool) : bool :=
  match body !! k with
  | Some (JStr s) => ok s
  | Some _ => false
  | None => negb required
  end.

Section Server.

(** [__dirname], the directory of [server.js]. *)
Variable dirname : string.

(** [Joi.string().uri()], which is not part of the repository. *)
Variable is_uri : string -> bool.

Definition clientUpdateSchema (body : gmap string json) : bool :=
  forallb
    (fun kv =>
       mem_string (fst kv)
         ["clientName"; "googleReviewLink"; "logoUrl"; "primaryColor";
          "secondaryColor"])
    (map_to_list body)
  && string_key body "clientName"
       (fun s => (3 <=? String.length s)%nat && (String.length s <=? 100)%nat)
       true
  && string_key body "googleReviewLink"
       (fun s => negb (String.eqb s "") && is_uri s) true
  && string_key body "logoUrl" (fun s => String.eqb s "" || is_uri s) false
  && string_key body "primaryColor" is_hex_color true
  && string_key body "secondaryColor" is_hex_color true.

(** *** Paths and constants *)

Definition DATA_DIR : string := Path.join dirname "data".

Definition SAMPLE_REVIEWS_FILE : string :=
  Path.join DATA_DIR "sample-reviews-200.json".

Definition getClientDataPath (clientId : string) : string :=
  Path.join DATA_DIR (clientId +:+ ".json").

(** *** Helper functions *)

Definition security_warning : json :=
  JArr [JStr "Security warning: Invalid file path."].

Definition hard_fallback : json :=
  JArr [JStr "Excellent service!"; JStr "Very professional."].

(** The fallback of [getReviewsFromFile], inside its [try]: [None] when
    it throws. *)
Definition default_reviews (d : disk) : option json :=
  defaultData ← readJson d SAMPLE_REVIEWS_FILE;
  match defaultData with
  | JNull => None
  | _ =>
      Some (match prop defaultData "reviews" with
            | Some v => if truthy v then v else JArr [JStr "Excellent service!"]
            | None => JArr [JStr "Excellent service!"]
            end)
  end.

(** The [try] block of [getReviewsFromFile]; [None] when it throws. *)
Definition read_reviews (d : disk) (filePath : string) : option json :=
  if pathExists d filePath then
    data ← readJson d filePath;
    match data with
    | JNull => None
    | _ =>
        match prop data "reviews" with
        | Some (JArr l) => Some (JArr l)
        | _ => default_reviews d
        end
    end
  else default_reviews d.

Definition getReviewsFromFile (d : disk) (fileName : option string) : json :=
  let fileName :=
    match fileName with
    | Some s => if String.eqb s "" then "sample-reviews-200.json" else s
    | None => "sample-reviews-200.json"
    end in
  let filePath := Path.join DATA_DIR fileName in
  if negb (String.prefix DATA_DIR filePath) then security_warning
  else
    match read_reviews d filePath with
    | Some reviews => reviews
    | None => hard_fallback
    end.

Definition getClientData (d : disk) (clientId : string) : json :=
  let filePath := getClientDataPath clientId in
  if pathExists d filePath then
    match readJson d filePath with
    | Some data => data
    | None => JNull
    end
  else JNull.

Definition writeClientData (d : disk) (clientId : string) (data : json)
    (wok : bool) : bool * disk :=
  if wok then (true, <[getClientDataPath clientId := Parsed data]> d)
  else (false, d).

(** *** Routes *)

(** [GET /api/clients]; [dir_ok] tells whether [fs.readdir] succeeds. *)
Definition listClients (d : disk) (dir_ok : bool) : response :=
  if dir_ok then
    let files := readdir d DATA_DIR in
    let clientFiles := List.filter (fun file => endsWith file ".json") files in
    let clients :=
      map (fun file =>
             let clientId := replace_first file ".json" in
             let data := getClientData d clientId in
             if truthy data then
               match prop data "clientId", prop data "clientName" with
               | Some cid, Some cname =>
                   if truthy cid && truthy cname then
                     Some (JObj (<["clientName" := cname]>
                                   {[ "clientId" := cid ]}))
                   else None
               | _, _ => None
               end
             else None)
          clientFiles in
    Respond 200 (JArr (omap id clients))
  else Respond 500 (message "Error reading client directory.").

(** [POST /api/client], after [validateBody] and the destructuring of the
    body into [clientId], [sourceReviewFile] and the rest. *)
Definition createClient (d : disk) (clientId : string)
    (sourceReviewFile : option string)
    (clientDetails : gmap string json) (wok : bool) : response * disk :=
  let filePath := getClientDataPath clientId in
  if pathExists d filePath then
    (Respond 409 (message "Client ID already exists."), d)
  else
    let initialReviews := getReviewsFromFile d sourceReviewFile in
    let newClientData :=
      JObj (<["reviews" := initialReviews]>
              (<["clientId" := JStr clientId]> (spread ∅ clientDetails))) in
    match writeClientData d clientId newClientData wok with
    | (true, d') => (Respond 201 newClientData, d')
    | (false, d') => (Respond 500 (message "Failed to create client file."), d')
    end.

(** [PUT /api/client/:clientId], after [validateBody]. *)
Definition updateClient (d : disk) (clientId : string)
    (body : gmap string json) (wok : bool) : response * disk :=
  let data := getClientData d clientId in
  if negb (truthy data) then
    (Respond 4404 (message "Client not found."), d)
  else
    let updatedData :=
      JObj (<["clientId" := JStr clientId]>
              (spread (spread ∅ (own_props data)) body)) in
    match writeClientData d clientId updatedData wok with
    | (true, d') => (Respond 200 updatedData, d')
    | (false, d') => (Respond 500 (message "Failed to update client data."), d')
    end.

(** [GET /api/client/:clientId/reviews]. *)
Definition listReviews (d : disk) (clientId : string) : response :=
  let data := getClientData d clientId in
  if negb (truthy data) then Respond 404 (message "Client not found.")
  else
    Respond 200
      (JObj {[ "reviews" :=
                 match prop data "reviews" with
                 | Some v => if truthy v then v else JArr []
                 | None => JArr []
                 end ]}).

(** [GET /api/client/:clientId/random-review]; [r] is the value of
    [Math.random()].  [None]: the stored [reviews] is truthy and not an
    array. *)
Definition randomReview (d : disk) (clientId : string) (r : Z)
  : option response :=
  let data := getClientData d clientId in
  let not_found := Respond 404 (message "Client not found or has no reviews.") in
  if negb (truthy data) then Some not_found
  else if negb (truthy_v (prop data "reviews")) then Some not_found
  else
    match prop data "reviews" with
    | Some (JArr l) =>
        if (length l =? 0)%nat then Some not_found
        else
          let randomIndex := Binary64.floor_mul r (length l) in
          let randomReview :=
            if randomIndex <? 0 then None else l !! Z.to_nat randomIndex in
          Some (Respond 200
                  (match randomReview with
                   | Some v => JObj {[ "review" := v ]}
                   | None => JObj ∅
                   end))
    | _ => None
    end.

(** [POST /api/client/:clientId/reviews], after [validateBody].  [None]:
    the stored [reviews] is truthy and not an array. *)
Definition addReview (d : disk) (clientId : string) (review : json)
    (wok : bool) : option (response * disk) :=
  let data := getClientData d clientId in
  if negb (truthy data) then
    Some (Respond 404 (message "Client not found."), d)
  else
    reviews ← reviews_or_empty (prop data "reviews");
    let data := set_prop data "reviews" (JArr (review :: reviews)) in
    Some (match writeClientData d clientId data wok with
          | (true, d') => (Respond 201 (JObj {[ "review" := review ]}), d')
          | (false, d') => (Respond 500 (message "Failed to add review."), d')
          end).

(** [DELETE /api/client/:clientId/reviews]; [review] is [req.body.review].
    [None]: the stored [reviews] is truthy and not an array. *)
Definition deleteReview (d : disk) (clientId : string)
    (review : option json) (wok : bool) : option (response * disk) :=
  match review with
  | Some text =>
      if negb (truthy text) then
        Some (Respond 400 (message "Review text is required."), d)
      else
        let data := getClientData d clientId in
        if negb (truthy data) then
          Some (Respond 404 (message "Client not found."), d)
        else
          reviews ← reviews_or_empty (prop data "reviews");
          match indexOf reviews text with
          | None => Some (Respond 404 (message "Review not found."), d)
          | Some reviewIndex =>
              let data :=
                set_prop data "reviews" (JArr (splice1 reviews reviewIndex)) in
              Some (match writeClientData d clientId data wok with
                    | (true, d') =>
                        (Respond 200 (message "Review deleted."), d')
                    | (false, d') =>
                        (Respond 500 (message "Failed to delete review."), d')
                    end)
          end
  | None => Some (Respond 400 (message "Review text is required."), d)
  end.

End Server.

(** ** The other routes of [server.js], and its request schemas *)

(** [fs.remove(p)]: the file goes, or the directory and all it holds. *)
Definition remove (d : disk) (p : string) : disk :=
  filter (fun kv => kv.1 <> p /\ String.prefix (p +:+ "/") kv.1 = false) d.

(** [Joi.string().alphanum()]. *)
Definition is_alphanum_char (c : ascii) : bool :=
  let n := nat_of_ascii c in
  ((48 <=? n) && (n <=? 57) || (65 <=? n) && (n <=? 90)
   || (97 <=? n) && (n <=? 122))%nat.

(** The class [[\w\.-]]. *)
Definition is_file_char (c : ascii) : bool :=
  is_alphanum_char c || Ascii.eqb c "_" || Ascii.eqb c "." || Ascii.eqb c "-".

(** [/^[\w\.-]+\.json$/]: the characters of [".json"] are in the class, so
    the pattern asks for a name in the class that ends with [".json"] and
    has a character before it. *)
Definition is_json_file_name (s : string) : bool :=
  all_chars is_file_char s && endsWith s ".json"
  && (6 <=? String.length s)%nat.

Definition allowed_keys (body : gmap string json) (keys : list string) : bool :=
  forallb (fun kv => mem_string (fst kv) keys) (map_to_list body).

Section Routes.

(** [__dirname], the directory of [server.js]. *)
Variable dirname : string.

(** [Joi.string().uri()], and the message of the first error Joi reports
    for a body a schema turns down; neither is part of the repository. *)
Variable is_uri : string -> bool.
Variable joi_message : (gmap string json -> bool) -> gmap string json -> string.

Definition clientCreateSchema (body : gmap string json) : bool :=
  allowed_keys body
    ["clientId"; "clientName"; "googleReviewLink"; "logoUrl"; "primaryColor";
     "secondaryColor"; "sourceReviewFile"]
  && string_key body "clientId"
       (fun s => all_chars is_alphanum_char s
                 && (3 <=? String.length s)%nat && (String.length s <=? 50)%nat)
       true
  && string_key body "clientName"
       (fun s => (3 <=? String.length s)%nat && (String.length s <=? 100)%nat)
       true
  && string_key body "googleReviewLink"
       (fun s => negb (String.eqb s "") && is_uri s) true
  && string_key body "logoUrl" (fun s => String.eqb s "" || is_uri s) false
  && string_key body "primaryColor" is_hex_color true
  && string_key body "secondaryColor" is_hex_color true
  && string_key body "sourceReviewFile"
       (fun s => String.eqb s "" || is_json_file_name s) false.

Definition addReviewSchema (body : gmap string json) : bool :=
  allowed_keys body ["review"]
  && string_key body "review"
       (fun s => (5 <=? String.length s)%nat && (String.length s <=? 500)%nat)
       true.

(** The answer of [validateBody] to a body its schema turns down. *)
Definition bad_request (schema : gmap string json -> bool)
    (body : gmap string json) : response :=
  Respond 400 (message (joi_message schema body)).

(** [GET /api/data-files]; [dir_ok] tells whether [fs.readdir] succeeds. *)
Definition listDataFiles (d : disk) (dir_ok : bool) : response :=
  if dir_ok then
    let files := readdir d (DATA_DIR dirname) in
    let jsonFiles := List.filter (fun file => endsWith file ".json") files in
    Respond 200 (JArr (map JStr jsonFiles))
  else Respond 500 (message "Error reading data directory.").

(** [POST /api/client] with its [validateBody]: the body is destructured
    into [clientId], [sourceReviewFile] and the rest once the schema, which
    makes the first a string and the second a string when it is there, has
    let it through. *)
Definition postClient (d : disk) (body : gmap string json) (wok : bool)
  : response * disk :=
  if clientCreateSchema body then
    match body !! "clientId" with
    | Some (JStr clientId) =>
        let sourceReviewFile :=
          match body !! "sourceReviewFile" with
          | Some (JStr s) => Some s
          | _ => None
          end in
        createClient dirname d clientId sourceReviewFile
          (delete "sourceReviewFile" (delete "clientId" body)) wok
    | _ => (bad_request clientCreateSchema body, d)
    end
  else (bad_request clientCreateSchema body, d).

(** [GET /api/client/:clientId]. *)
Definition getClientDetail (d : disk) (clientId : string) : response :=
  let data := getClientData dirname d clientId in
  if negb (truthy data) then Respond 404 (message "Client not found.")
  else
    let clientDetails := delete "reviews" (own_props data) in
    Respond 200 (JObj clientDetails).

(** [PUT /api/client/:clientId] with its [validateBody]. *)
Definition putClient (d : disk) (clientId : string)
    (body : gmap string json) (wok : bool) : response * disk :=
  if clientUpdateSchema is_uri body then updateClient dirname d clientId body wok
  else (bad_request (clientUpdateSchema is_uri) body, d).

(** [DELETE /api/client/:clientId]; [rok] tells whether [fs.remove]
    succeeds.  The 204 answer has no body. *)
Definition deleteClient (d : disk) (clientId : string) (rok : bool)
  : (Z * option json) * disk :=
  let filePath := getClientDataPath dirname clientId in
  if negb (pathExists d filePath) then
    ((404, Some (message "Client not found.")), d)
  else if rok then ((204, None), remove d filePath)
  else ((500, Some (message "Error deleting client file.")), d).

(** [POST /api/client/:clientId/reviews] with its [validateBody]. *)
Definition postReview (d : disk) (clientId : string)
    (body : gmap string json) (wok : bool) : option (response * disk) :=
  if addReviewSchema body then
    match body !! "review" with
    | Some review => addReview dirname d clientId review wok
    | None => Some (bad_request addReviewSchema body, d)
    end
  else Some (bad_request addReviewSchema body, d).

End Routes.

(** [PORT] and [APP_BASE_URL], from the environment variables of the same
    names. *)
Definition PORT (env_port : option string) : string :=
  match env_port with
  | Some p => if String.eqb p "" then "5000" else p
  | None => "5000"
  end.

Definition APP_BASE_URL (env_base env_port : option string) : string :=
  match env_base with
  | Some base =>
      if String.eqb base "" then "http://localhost:" +:+ PORT env_port
      else base
  | None => "http://localhost:" +:+ PORT env_port
  end.

(** [POST /api/client/:clientId/generate-qr]; [toDataURL] is the encoder of
    the [qrcode] package with the options of the route, [None] when it
    throws. *)
Definition generateQr (toDataURL : string -> option string)
    (env_base env_port : option string) (clientId : string) : response :=
  let reviewPageUrl := APP_BASE_URL env_base env_port +:+ "/review/" +:+ clientId in
  match toDataURL reviewPageUrl with
  | Some dataUrl =>
      Respond 200
        (JObj (<["qrDataUrl" := JStr dataUrl]> {[ "link" := JStr reviewPageUrl ]}))
  | None => Respond 500 (message "Failed to generate QR code.")
  end.

(** ** The migration script *)

(** The commands queued on the pipeline of the key-value store. *)
Inductive kv_command : Type :=
  | KvSet (key : json) (value : json)
  | KvSadd (set : string) (member : json).

Inductive migration : Type :=
  | NotConfigured
  | MigrationFailed
  | Executed (commands : list kv_command).

Definition clientFiles : list string :=
  ["kirtan.json"; "nayan.json"; "Prarthana12.json"; "Yogesh.json"].

(** The loop of [migrate] over the files still to read, [pipe] being the
    commands queued so far; [None] when it throws. *)
Fixpoint queue_files (dirname : string) (d : disk) (files : list string)
    (pipe : list kv_command) : option (list kv_command) :=
  match files with
  | [] => Some pipe
  | file :: rest =>
      let filePath := Path.join (DATA_DIR dirname) file in
      if pathExists d filePath then
        data ← readJson d filePath;
        match data with
        | JNull => None
        | _ =>
            match prop data "clientId" with
            | Some clientId =>
                if truthy clientId then
                  queue_files dirname d rest
                    (pipe ++ [KvSet clientId data; KvSadd "clients" clientId])
                else queue_files dirname d rest pipe
            | None => queue_files dirname d rest pipe
            end
        end
      else queue_files dirname d rest pipe
  end.

(** [migrate()] over the files [files]; [kv_url] is the environment
    variable [KV_URL], [exec_ok] tells whether [pipe.exec()] succeeds. *)
Definition migrate (dirname : string) (kv_url : option string) (d : disk)
    (files : list string) (exec_ok : bool) : migration :=
  match kv_url with
  | Some url =>
      if String.eqb url "" then NotConfigured
      else
        match queue_files dirname d files [] with
        | Some commands =>
            if exec_ok then Executed commands else MigrationFailed
        | None => MigrationFailed
        end
  | None => NotConfigured
  end.

(** ** Vocabulary of the specification *)

(** A path is confined to [root] when it is [root] or lies below it. *)
Definition inside_root (root p : string) : bool :=
  String.eqb p root || String.prefix (root +:+ "/") p.

(** A non-empty sequence of strings. *)
Definition nonempty_strings (v : json) : Prop :=
  exists s rest, v = JArr (map JStr (s :: rest)).

(** The [reviews] value of a seed file, when it has one, is a non-empty
    array of strings. *)
Definition seed_ok (c : content) : Prop :=
  forall j v,
    c = Parsed j -> prop j "reviews" = Some v -> nonempty_strings v.

(** The seed file [load] looks for: the canonical default name stands in
    for an empty or absent [seedName]. *)
Definition seed_path (dirname : string) (seedName : option string) : string :=
  Path.join (DATA_DIR dirname)
    (match seedName with
     | Some s => if String.eqb s "" then "sample-reviews-200.json" else s
     | None => "sample-reviews-200.json"
     end).

(** The first occurrence of [".json"] in a file name is its extension. *)
Definition extension_only (name : string) : bool :=
  match index 0 ".json" name with
  | Some i => (i + 5 =? String.length name)%nat
  | None => false
  end.




(** ** A sample installation, for the examples *)

Definition app_dir : string := "/srv/app".

Definition sample_seed : content :=
  Parsed (JObj {[ "reviews" := JArr [JStr "Good"; JStr "Bad"] ]}).

(** A data directory that holds the default seed file only. *)
Definition fresh_disk : disk :=
  {[ "/srv/app/data/sample-reviews-200.json" := sample_seed ]}.

Definition acme_doc : json :=
  JObj (<["reviews" := JArr [JStr "Good"; JStr "Bad"; JStr "Good"]]>
          (<["clientName" := JStr "Acme"]> {[ "clientId" := JStr "acme123" ]})).

(** The same directory with the document of the client [acme123]. *)
Definition acme_disk : disk :=
  <["/srv/app/data/acme123.json" := Parsed acme_doc]> fresh_disk.

Definition acme_update : gmap string json :=
  <["clientName" := JStr "Acme Ltd"]>
    (<["googleReviewLink" := JStr "https://g.page/acme/review"]>
       (<["primaryColor" := JStr "#112233"]>
          {[ "secondaryColor" := JStr "#AABBCC" ]})).

Definition https_uri (s : string) : bool := String.prefix "https://" s.

(** A client whose reviews are ["A", "B"]. *)
Definition ab_disk : disk :=
  <["/srv/app/data/ab.json" :=
      Parsed (JObj {[ "reviews" := JArr [JStr "A"; JStr "B"] ]})]> fresh_disk.

(** The value 0.5 of [Math.random()]. *)
Definition one_half : Z := 2 ^ 1073.


(** Seed files: one with an empty [reviews] array, one that is not JSON. *)
Definition seed_disk : disk :=
  <["/srv/app/data/empty.json" := Parsed (JObj {[ "reviews" := JArr [] ]})]>
    (<["/srv/app/data/broken.json" := Unreadable]> fresh_disk).

(** Files outside the data directory [/srv/app/data]: one next to it, one
    in a directory whose name starts with [data]. *)
Definition secret_doc : json :=
  JObj {[ "reviews" := JArr [JStr "not a client document"] ]}.

Definition outside_disk : disk :=
  <["/srv/app/secret.json" := Parsed secret_doc]>
    (<["/srv/app/data-old/seed.json" :=
         Parsed (JObj {[ "reviews" := JArr [JStr "from outside"] ]})]>
       fresh_disk).

(** ** Vocabulary of the further properties *)

(** A file name: no ["/"], and not [""], ["."] or [".."]. *)
Definition simple_name (s : string) : bool :=
  negb (contains_slash s) && negb (String.eqb s "")
  && negb (String.eqb s ".") && negb (String.eqb s "..").

(** The stacks [normalizeString] builds: file names, on top of [".."]
    segments when the path may climb above its start. *)
Fixpoint stack_ok (allowAboveRoot : bool) (stack : list string) : bool :=
  match stack with
  | [] => true
  | top :: below =>
      simple_name top && stack_ok allowAboveRoot below
      || allowAboveRoot && String.eqb top ".."
         && forallb (String.eqb "..") below
  end.

(** A path lies below another one, which is then a directory. *)
Definition below (dir p : string) : bool := String.prefix (dir +:+ "/") p.

(** [fs.readJson(p)] throws, or returns the [null] whose [clientId] the
    migration then fails to read. *)
Definition throws_on (d : disk) (p : string) : bool :=
  match d !! p with
  | Some Unreadable | Some (Parsed JNull) => true
  | _ => false
  end.

(** A file [getClientData] gets nothing from: reading it throws, or it
    parses to a falsy value. *)
Definition falsy_content (c : content) : bool :=
  match c with
  | Unreadable => true
  | Parsed j => negb (truthy j)
  end.

(** The commands the migration owes to one file: none when the file is
    missing or its document has no truthy [clientId]. *)
Definition commands_of (dirname : string) (d : disk) (file : string)
  : list kv_command :=
  match d !! Path.join (DATA_DIR dirname) file with
  | Some (Parsed data) =>
      match prop data "clientId" with
      | Some clientId =>
          if truthy clientId then
            [KvSet clientId data; KvSadd "clients" clientId]
          else []
      | None => []
      end
  | _ => []
  end.

(** A body [POST /api/client] accepts. *)
Definition acme_create : gmap string json :=
  <["clientId" := JStr "acme123"]>
    (<["sourceReviewFile" := JStr "sample-reviews-200.json"]> acme_update).

(** A stand-in for the message of Joi's first error. *)
Definition first_error (schema : gmap string json -> bool)
    (body : gmap string json) : string :=
  "The request body is not valid.".

(** A data directory in which the file of the client [acme123] is not
    JSON. *)
Definition broken_disk : disk :=
  <["/srv/app/data/acme123.json" := Unreadable]> fresh_disk.

(** A data directory with two of the documents the migration lists, one of
    them without a [clientId]. *)
Definition kirtan_doc : json :=
  JObj (<["reviews" := JArr [JStr "Great work"]]>
          (<["clientName" := JStr "Kirtan"]> {[ "clientId" := JStr "kirtan" ]})).

Definition migration_disk : disk :=
  <["/srv/app/data/kirtan.json" := Parsed kirtan_doc]>
    (<["/srv/app/data/nayan.json" := Parsed (JObj {[ "clientName" := JStr "Nayan" ]})]>
       fresh_disk).

(** ** Objects *)

Lemma index_key_not_reviews i : index_key i <> "reviews".
Proof.
  unfold index_key. destruct (Nat.to_uint i); simpl; discriminate.
Qed.

Lemma indexed_no_reviews {A} (l : list A) i :
  "reviews" ∉ (indexed i l).*1.
Proof.
  revert i. induction l as [|x rest IH]; intros i; simpl.
  - apply not_elem_of_nil.
  - intros Hin. apply elem_of_cons in Hin as [E|Hin].
    + by destruct (index_key_not_reviews i).
    + by apply (IH (S i)).
Qed.

(** Copying the own properties of a stored value keeps its [reviews]. *)
Lemma own_props_reviews data :
  own_props data !! "reviews" = prop data "reviews".
Proof.
  destruct data; simpl; try reflexivity; try apply lookup_empty;
    apply not_elem_of_list_to_map_1, indexed_no_reviews.
Qed.

Lemma lookup_spread a b k :
  spread a b !! k = match b !! k with Some v => Some v | None => a !! k end.
Proof.
  unfold spread. destruct (b !! k) as [v|] eqn:E.
  - by apply lookup_union_Some_l.
  - by rewrite lookup_union_r.
Qed.

(** ** Array operations *)

Lemma strict_eq_str y t : strict_eq y (JStr t) = true <-> y = JStr t.
Proof.
  destruct y; simpl; try (split; [discriminate|intros [=]]).
  split.
  - intros H. apply String.eqb_eq in H. by subst.
  - intros [= ->]. apply String.eqb_refl.
Qed.

Lemma indexOf_None l t : indexOf l (JStr t) = None <-> JStr t ∉ l.
Proof.
  induction l as [|y rest IH]; simpl.
  - split; [intros _; apply not_elem_of_nil|reflexivity].
  - destruct (strict_eq y (JStr t)) eqn:E.
    + apply strict_eq_str in E as ->. split; [discriminate|].
      intros H. destruct H. apply list_elem_of_here.
    + destruct (indexOf rest (JStr t)) eqn:Ei; simpl.
      * split; [discriminate|]. intros H. exfalso.
        assert (JStr t ∉ rest) as Hr; [|apply IH in Hr; discriminate].
        intros Hin. apply H. by apply list_elem_of_further.
      * split; [|reflexivity]. intros _ Hin.
        apply elem_of_cons in Hin as [Hy|Hin].
        -- assert (strict_eq y (JStr t) = true) by by apply strict_eq_str.
           congruence.
        -- by apply IH in Hin.
Qed.

(** [indexOf] finds the first occurrence, and [splice1] removes it. *)
Lemma indexOf_Some l t i :
  indexOf l (JStr t) = Some i ->
  exists before after,
    l = before ++ JStr t :: after /\ (JStr t ∉ before)
    /\ length before = i /\ splice1 l i = before ++ after.
Proof.
  revert i. induction l as [|y rest IH]; intros i; simpl; [discriminate|].
  destruct (strict_eq y (JStr t)) eqn:E.
  - intros [= <-]. apply strict_eq_str in E as ->.
    exists [], rest. repeat split; auto using not_elem_of_nil.
  - destruct (indexOf rest (JStr t)) as [j|] eqn:Ei; simpl; [|discriminate].
    intros [= <-]. destruct (IH j eq_refl) as (b & a & -> & Hnot & Hlen & Hsp).
    exists (y :: b), a. repeat split; simpl; auto.
    + intros Hin. apply elem_of_cons in Hin as [Hy|Hin]; [|by apply Hnot].
      assert (strict_eq y (JStr t) = true) by by apply strict_eq_str.
      congruence.
    + unfold splice1 in *. simpl. by rewrite Hsp.
Qed.

Lemma reviews_or_empty_array rv l :
  reviews_or_empty rv = Some l -> l <> [] -> rv = Some (JArr l).
Proof.
  destruct rv as [v|]; simpl; [|congruence].
  destruct v; simpl; try destruct (negb _); try destruct b; congruence.
Qed.

Lemma truthy_text text : text <> "" -> truthy (JStr text) = true.
Proof.
  intros Hne. simpl. destruct (String.eqb_spec text ""); [contradiction|].
  reflexivity.
Qed.

(** ** The disk after a write *)

Lemma getClientData_written dirname d clientId data :
  getClientData dirname
    (<[getClientDataPath dirname clientId := Parsed data]> d) clientId = data.
Proof.
  unfold getClientData, pathExists, readJson. by rewrite lookup_insert_eq.
Qed.

Lemma listReviews_of_object dirname d clientId f l :
  getClientData dirname d clientId = JObj f ->
  reviews_or_empty (f !! "reviews") = Some l ->
  listReviews dirname d clientId = Respond 200 (JObj {[ "reviews" := JArr l ]}).
Proof.
  intros Hdata Hl. unfold listReviews. rewrite Hdata. simpl.
  destruct (f !! "reviews") as [v|]; simpl in Hl.
  - destruct v; simpl in *; try destruct (negb _); try destruct b;
      congruence.
  - congruence.
Qed.

(** ** The update schema *)

Lemma schema_keys is_uri body k v :
  clientUpdateSchema is_uri body = true ->
  body !! k = Some v ->
  mem_string k
    ["clientName"; "googleReviewLink"; "logoUrl"; "primaryColor";
     "secondaryColor"] = true.
Proof.
  unfold clientUpdateSchema. intros Hschema Hk.
  repeat (apply andb_true_iff in Hschema as [Hschema _]).
  rewrite forallb_forall in Hschema.
  apply (Hschema (k, v)).
  apply list_elem_of_In, elem_of_map_to_list, Hk.
Qed.

Lemma schema_excludes is_uri body k :
  clientUpdateSchema is_uri body = true ->
  mem_string k
    ["clientName"; "googleReviewLink"; "logoUrl"; "primaryColor";
     "secondaryColor"] = false ->
  body !! k = None.
Proof.
  intros Hschema Hk. destruct (body !! k) as [v|] eqn:E; [|reflexivity].
  rewrite (schema_keys _ _ _ _ Hschema E) in Hk. discriminate.
Qed.

(** ** The seed loader *)

Lemma getReviewsFromFile_unfold dirname d seedName :
  getReviewsFromFile dirname d seedName
  = if negb (String.prefix (DATA_DIR dirname) (seed_path dirname seedName))
    then security_warning
    else match read_reviews dirname d (seed_path dirname seedName) with
         | Some reviews => reviews
         | None => hard_fallback
         end.
Proof. reflexivity. Qed.

Lemma nonempty_strings_warning : nonempty_strings security_warning.
Proof. by exists "Security warning: Invalid file path.", []. Qed.

Lemma nonempty_strings_fallback : nonempty_strings hard_fallback.
Proof. by exists "Excellent service!", ["Very professional."]. Qed.

Lemma default_reviews_nonempty dirname d :
  (forall q c, d !! q = Some c -> seed_ok c) ->
  forall v, default_reviews dirname d = Some v -> nonempty_strings v.
Proof.
  intros Hseeds v. unfold default_reviews, readJson.
  destruct (d !! SAMPLE_REVIEWS_FILE dirname) as [[|dd]|] eqn:Hd;
    simpl; try discriminate.
  assert (forall w, prop dd "reviews" = Some w -> nonempty_strings w) as Hdd.
  { intros w Hw. by apply (Hseeds _ _ Hd dd w). }
  assert (nonempty_strings (JArr [JStr "Excellent service!"])) as Hone
    by by exists "Excellent service!", [].
  destruct dd as [| | | | |f]; try discriminate; simpl in *; intros [= <-];
    try exact Hone.
  destruct (f !! "reviews") as [w|]; [|exact Hone].
  destruct (truthy w); [|exact Hone]. by apply Hdd.
Qed.

Lemma read_reviews_array dirname d p data l :
  d !! p = Some (Parsed data) ->
  prop data "reviews" = Some (JArr l) ->
  read_reviews dirname d p = Some (JArr l).
Proof.
  intros Hd Hl. unfold read_reviews, pathExists, readJson. rewrite Hd. simpl.
  destruct data; simpl in Hl; try discriminate. simpl. by rewrite Hl.
Qed.

Lemma read_reviews_throws dirname d p :
  d !! p = Some Unreadable \/ d !! p = Some (Parsed JNull) ->
  read_reviews dirname d p = None.
Proof.
  unfold read_reviews, pathExists, readJson. by intros [->| ->].
Qed.

Lemma read_reviews_falls_back dirname d p :
  d !! p = None
  \/ (exists data,
        d !! p = Some (Parsed data) /\ data <> JNull
        /\ forall l, prop data "reviews" <> Some (JArr l)) ->
  read_reviews dirname d p = default_reviews dirname d.
Proof.
  unfold read_reviews, pathExists, readJson.
  intros [->|(data & -> & Hnull & Hdata)]; [reflexivity|]. simpl.
  destruct data as [| | | | |f]; try reflexivity; [contradiction|].
  simpl in *. destruct (f !! "reviews") as [[]|] eqn:E; try reflexivity.
  by destruct (Hdata l).
Qed.

Lemma fresh_disk_seeds_ok : forall q c, fresh_disk !! q = Some c -> seed_ok c.
Proof.
  intros q c Hq. unfold fresh_disk in Hq.
  apply lookup_singleton_Some in Hq as [_ <-].
  intros j v [= <-] Hv. simpl in Hv. rewrite lookup_singleton_eq in Hv.
  injection Hv as <-. by exists "Good", ["Bad"].
Qed.

(** ** Rounding of [Math.random() * n] *)

Lemma round_cases x :
  2 ^ 53 <= x ->
  let s := Z.log2 x - 52 in
  1 <= s /\ 2 ^ 53 * 2 ^ (s - 1) <= x
  /\ (Binary64.round x = x / 2 ^ s * 2 ^ s
      \/ (Binary64.round x = (x / 2 ^ s + 1) * 2 ^ s /\ 2 ^ (s - 1) <= x mod 2 ^ s)).
Proof.
  intros Hx s.
  assert (0 < x) as Hpos by (pose proof (Z.pow_pos_nonneg 2 53); lia).
  assert (53 <= Z.log2 x) as Hlog by (apply Z.log2_le_pow2; lia).
  split; [unfold s; lia|]. split.
  - replace (2 ^ 53 * 2 ^ (s - 1)) with (2 ^ Z.log2 x).
    + apply Z.log2_spec; lia.
    + rewrite <- Z.pow_add_r by (unfold s; lia). f_equal. unfold s. lia.
  - unfold Binary64.round. fold s.
    destruct (x <? 2 ^ 53) eqn:E; [apply Z.ltb_lt in E; lia|].
    destruct (x mod 2 ^ s <? 2 ^ (s - 1)) eqn:E1; [by left|].
    apply Z.ltb_ge in E1.
    destruct (2 ^ (s - 1) <? x mod 2 ^ s); [by right|].
    destruct (Z.even (x / 2 ^ s)); [by left|by right].
Qed.

Lemma round_upper x : 0 <= x -> 0 <= Binary64.round x /\ 2 ^ 53 * Binary64.round x <= (2 ^ 53 + 1) * x.
Proof.
  intros Hx. destruct (Z.lt_ge_cases x (2 ^ 53)) as [Hsmall|Hbig].
  - unfold Binary64.round. apply Z.ltb_lt in Hsmall. rewrite Hsmall. lia.
  - destruct (round_cases x Hbig) as (Hs & Hhalf & Hround).
    set (s := Z.log2 x - 52) in *.
    assert (2 ^ s = 2 * 2 ^ (s - 1)) as Hpow.
    { rewrite <- Z.pow_succ_r by lia. f_equal. lia. }
    assert (0 < 2 ^ (s - 1)) as Hh by (apply Z.pow_pos_nonneg; lia).
    pose proof (Z.div_mod x (2 ^ s) ltac:(lia)) as Hdm.
    pose proof (Z.mod_pos_bound x (2 ^ s) ltac:(lia)) as Hmod.
    assert (0 <= x / 2 ^ s) as Hq by (apply Z.div_pos; lia).
    set (p53 := 2 ^ 53) in *. assert (0 < p53) by (unfold p53; lia).
    destruct Hround as [->|[-> Hup]]; nia.
Qed.

Lemma one_split : Binary64.one = 2 ^ 53 * 2 ^ 1021.
Proof. unfold Binary64.one, Binary64.unit_exp. rewrite <- Z.pow_add_r by lia. reflexivity. Qed.

Lemma unit_double_max r :
  Binary64.unit_double r = true -> 0 <= r /\ r <= (2 ^ 53 - 1) * 2 ^ 1021.
Proof.
  unfold Binary64.unit_double. intros H.
  apply andb_true_iff in H as [H Hround]. apply andb_true_iff in H as [H0 H1].
  apply Z.leb_le in H0. apply Z.ltb_lt in H1. apply Z.eqb_eq in Hround.
  split; [assumption|]. rewrite one_split in H1.
  assert (0 < 2 ^ 1021) as Hp by (apply Z.pow_pos_nonneg; lia).
  assert (0 < 2 ^ 53) as Hp53 by (apply Z.pow_pos_nonneg; lia).
  destruct (Z.lt_ge_cases r (2 ^ 53)) as [Hsmall|Hbig].
  - assert (2 ^ 53 <= (2 ^ 53 - 1) * 2 ^ 1021); [|lia].
    assert (2 <= 2 ^ 1021) by (change 2 with (2 ^ 1) at 1; apply Z.pow_le_mono_r; lia).
    nia.
  - destruct (round_cases r Hbig) as (Hs & Hhalf & Hcases).
    set (s := Z.log2 r - 52) in *.
    assert (exists k, r = k * 2 ^ s) as [k Hk].
    { destruct Hcases as [E|[E _]]; rewrite Hround in E; eauto. }
    assert (Z.log2 r < 1074) as Hlog.
    { apply Z.log2_lt_pow2; [lia|].
      rewrite <- Z.pow_add_r in H1 by lia. exact H1. }
    assert (2 ^ 53 = 2 * 2 ^ 52) as H53 by reflexivity.
    assert (0 < 2 ^ 52) as Hp52 by (apply Z.pow_pos_nonneg; lia).
    destruct (Z.eq_dec s 1021) as [Es|Es].
    + rewrite Es in Hk. rewrite Hk in *.
      set (a := 2 ^ 1021) in *. set (c := 2 ^ 53) in *.
      assert (k < c) by nia. nia.
    + assert (r < 2 ^ 1073) as Hlt.
      { apply Z.log2_lt_pow2; [lia|]. unfold s in Es. lia. }
      replace (2 ^ 1073) with (2 ^ 52 * 2 ^ 1021) in Hlt
        by (rewrite <- Z.pow_add_r by lia; reflexivity).
      set (a := 2 ^ 1021) in *. set (c := 2 ^ 52) in *. nia.
Qed.

Lemma floor_mul_range r n :
  Binary64.unit_double r = true -> (0 < n)%nat ->
  0 <= Binary64.floor_mul r n < Z.of_nat n.
Proof.
  intros Hr Hn. destruct (unit_double_max r Hr) as [H0 Hmax].
  unfold Binary64.floor_mul.
  assert (0 <= r * Z.of_nat n) as Hp by nia.
  destruct (round_upper _ Hp) as [Hnonneg Hupper].
  assert (0 < Binary64.one) as Hone by (apply Z.pow_pos_nonneg; unfold Binary64.unit_exp; lia).
  split; [apply Z.div_pos; lia|].
  apply Z.div_lt_upper_bound; [lia|].
  rewrite one_split in *.
  assert (0 < 2 ^ 1021) as Hp1 by (apply Z.pow_pos_nonneg; lia).
  assert (0 < 2 ^ 53) as Hp53 by (apply Z.pow_pos_nonneg; lia).
  set (a := 2 ^ 1021) in *. set (c := 2 ^ 53) in *.
  set (m := Z.of_nat n) in *. assert (1 <= m) by (unfold m; lia).
  set (R := Binary64.round (r * m)) in *.
  assert (c * R <= (c + 1) * (m * ((c - 1) * a))) by nia.
  nia.
Qed.

(** ** File names *)

Local Open Scope nat_scope.

Lemma append_cons c a b : String c a +:+ b = String c (a +:+ b).
Proof. reflexivity. Qed.

Lemma append_empty_r a : a +:+ "" = a.
Proof. induction a as [|c a IH]; [reflexivity|]. by rewrite append_cons, IH. Qed.

Lemma append_assoc a b c : (a +:+ b) +:+ c = a +:+ (b +:+ c).
Proof.
  induction a as [|x a IH]; [reflexivity|]. by rewrite !append_cons, IH.
Qed.

Lemma length_append a b :
  String.length (a +:+ b) = (String.length a + String.length b)%nat.
Proof.
  induction a as [|x a IH]; [reflexivity|].
  rewrite append_cons. simpl. by rewrite IH.
Qed.

Lemma substring_empty n s : substring n 0 s = "".
Proof.
  revert n. induction s as [|c s IH]; intros [|n]; simpl; auto.
Qed.

Lemma substring_full s : substring 0 (String.length s) s = s.
Proof. induction s as [|c s IH]; simpl; congruence. Qed.

Lemma substring_split i s :
  (i <= String.length s)%nat ->
  substring 0 i s +:+ substring i (String.length s - i) s = s.
Proof.
  revert i. induction s as [|c s IH]; intros [|i] Hi; simpl in *; try lia; auto.
  - by rewrite substring_full.
  - rewrite append_cons. f_equal. apply IH. lia.
Qed.



Lemma substring_append_skip x y p m :
  substring (String.length x + p) m (x +:+ y) = substring p m y.
Proof. induction x as [|c x IH]; [reflexivity|]. rewrite append_cons. apply IH. Qed.


Lemma replace_first_extension name :
  extension_only name = true ->
  replace_first name ".json" +:+ ".json" = name.
Proof.
  unfold extension_only, replace_first.
  destruct (index 0 ".json" name) as [i|] eqn:Hi; [|discriminate].
  intros Hlen. apply Nat.eqb_eq in Hlen.
  pose proof (index_correct1 _ _ _ _ Hi) as Hsub. simpl in Hsub.
  change (String.length ".json") with 5%nat. rewrite Hlen, Nat.sub_diag, substring_empty.
  etransitivity; [|apply (substring_split i name); lia].
  replace (String.length name - i)%nat with 5%nat by lia.
  by rewrite Hsub, append_empty_r.
Qed.


Lemma endsWith_json s :
  endsWith s ".json" = true ->
  (5 <= String.length s)%nat
  /\ substring (String.length s - 5) 5 s = ".json".
Proof.
  unfold endsWith. intros H. apply andb_true_iff in H as [Hlen Hsub].
  apply Nat.leb_le in Hlen. apply String.eqb_eq in Hsub. auto.
Qed.


Lemma contains_slash_append a b :
  contains_slash (a +:+ b) = contains_slash a || contains_slash b.
Proof.
  induction a as [|c a IH]; [reflexivity|].
  rewrite append_cons. simpl. rewrite IH. by destruct (Ascii.eqb c "/").
Qed.

Lemma contains_slash_substring p m s :
  contains_slash s = false -> contains_slash (substring p m s) = false.
Proof.
  revert p m. induction s as [|c s IH]; intros [|p] [|m] H; simpl in *;
    try reflexivity; apply orb_false_iff in H as [Hc Hs].
  - rewrite Hc. by apply IH.
  - by apply IH.
  - by apply IH.
Qed.



Local Close Scope nat_scope.

(** ** Paths below the data directory of the sample installation *)

Lemma segments_nonempty s : Path.segments s <> [].
Proof.
  destruct s as [|c s]; simpl; [discriminate|].
  destruct (Ascii.eqb c "/"); [discriminate|].
  destruct (Path.segments s); discriminate.
Qed.

Lemma segments_append_slash x y :
  Path.segments (x +:+ "/" +:+ y) = Path.segments x ++ Path.segments y.
Proof.
  induction x as [|c x IH]; [reflexivity|].
  rewrite append_cons. simpl. rewrite IH.
  destruct (Ascii.eqb c "/"); [reflexivity|].
  pose proof (segments_nonempty x).
  destruct (Path.segments x); [contradiction|reflexivity].
Qed.

Lemma segments_no_slash name :
  contains_slash name = false -> Path.segments name = [name].
Proof.
  induction name as [|c name IH]; [reflexivity|]. simpl.
  intros H. apply orb_false_iff in H as [-> H]. by rewrite IH.
Qed.

Lemma no_trailing_slash pre name :
  contains_slash name = false -> name <> "" ->
  endsWith (pre +:+ name) "/" = false.
Proof.
  intros Hslash Hne. unfold endsWith. apply andb_false_iff. right.
  apply String.eqb_neq. intros Hsub.
  assert (0 < String.length name)%nat as Hlen
    by (destruct name; [contradiction|simpl; lia]).
  rewrite length_append in Hsub. simpl in Hsub.
  replace (String.length pre + String.length name - 1)%nat
    with (String.length pre + (String.length name - 1))%nat in Hsub by lia.
  rewrite substring_append_skip in Hsub.
  pose proof (contains_slash_substring (String.length name - 1) 1 _ Hslash) as H.
  rewrite Hsub in H. discriminate.
Qed.


(** ** The directory listing *)

Lemma omap_id_map {A B} (g : A -> option B) (l : list A) :
  omap id (map g l) = omap g l.
Proof.
  induction l as [|x l IH]; csimpl; [reflexivity|].
  rewrite IH. by destruct (g x).
Qed.




(** ** Properties of the specification *)

(** C1 (the code departs from it).  The specification has every path made
    from a client identifier or a seed-file name confined to the data
    root.  With the data root [/srv/app/data]: the identifier ["../secret"]
    resolves to [/srv/app/secret.json], outside the root, no check is made,
    and the file is read and rewritten through the review routes; the seed
    name ["../data-old/seed.json"] resolves to a file of the sibling
    directory [/srv/app/data-old], passes the string-prefix test of the
    loader, and is read. *)
Theorem C1_paths_escape_data_root :
  DATA_DIR app_dir = "/srv/app/data"
  /\ getClientDataPath app_dir "../secret" = "/srv/app/secret.json"
  /\ inside_root (DATA_DIR app_dir) (getClientDataPath app_dir "../secret")
     = false
  /\ getClientData app_dir outside_disk "../secret" = secret_doc
  /\ (exists d',
        addReview app_dir outside_disk "../secret" (JStr "Great service!!!") true
        = Some (Respond 201 (JObj {[ "review" := JStr "Great service!!!" ]}), d')
        /\ d' !! "/srv/app/secret.json" <> outside_disk !! "/srv/app/secret.json")
  /\ seed_path app_dir (Some "../data-old/seed.json")
     = "/srv/app/data-old/seed.json"
  /\ inside_root (DATA_DIR app_dir)
       (seed_path app_dir (Some "../data-old/seed.json")) = false
  /\ String.prefix (DATA_DIR app_dir)
       (seed_path app_dir (Some "../data-old/seed.json")) = true
  /\ getReviewsFromFile app_dir outside_disk (Some "../data-old/seed.json")
     = JArr [JStr "from outside"].
Proof.
  repeat split; try reflexivity.
  eexists. split; [reflexivity|]. vm_compute. discriminate.
Qed.

(** C2 (the code departs from it).  The specification lets [updateClient]
    on a client without a document fail with the NotFound signal of the
    other operations, HTTP 404, and write nothing.  The update handler
    writes nothing, but the status it sends is 4404, while
    [listReviews] on the same client answers 404. *)
Theorem C2_update_missing_client_status dirname d clientId body wok :
  truthy (getClientData dirname d clientId) = false ->
  updateClient dirname d clientId body wok
  = (Respond 4404 (message "Client not found."), d)
  /\ listReviews dirname d clientId = Respond 404 (message "Client not found.")
  /\ status_of (fst (updateClient dirname d clientId body wok)) <> 404.
Proof.
  intros Hmissing. unfold updateClient, listReviews. rewrite Hmissing. simpl.
  repeat split. discriminate.
Qed.

Lemma C2_update_missing_client_witness :
  truthy (getClientData "/srv/app" ∅ "nobody") = false
  /\ updateClient "/srv/app" ∅ "nobody" {[ "clientName" := JStr "Acme" ]} true
     = (Respond 4404 (message "Client not found."), ∅).
Proof.
  split; [reflexivity|].
  apply (C2_update_missing_client_status "/srv/app" ∅ "nobody"
           {[ "clientName" := JStr "Acme" ]} true).
  reflexivity.
Defined.

(** C3 (as the code has it).  [load] is total.  A name that fails the
    path test gives the one-element security warning.  Otherwise: a named
    file that parses with a [reviews] array gives that array as it is
    stored, empty or not; a named file on which reading throws (it is not
    JSON, or it is the JSON [null]) gives the hard-coded two-element list;
    a named file that is absent, or parses without a [reviews] array,
    gives way to the default seed file, whose [reviews] are returned when
    it has them, the one-element list when it parses without them, and the
    two-element list when reading it throws.  The result is a non-empty
    sequence of strings as soon as the [reviews] of every file on disk
    are. *)
Theorem C3_seed_loader_chain dirname d seedName :
  (String.prefix (DATA_DIR dirname) (seed_path dirname seedName) = false ->
   getReviewsFromFile dirname d seedName = security_warning)
  /\ (String.prefix (DATA_DIR dirname) (seed_path dirname seedName) = true ->
      (forall data l,
         d !! seed_path dirname seedName = Some (Parsed data) ->
         prop data "reviews" = Some (JArr l) ->
         getReviewsFromFile dirname d seedName = JArr l)
      /\ (d !! seed_path dirname seedName = Some Unreadable
          \/ d !! seed_path dirname seedName = Some (Parsed JNull) ->
          getReviewsFromFile dirname d seedName = hard_fallback)
      /\ (d !! seed_path dirname seedName = None
          \/ (exists data,
                d !! seed_path dirname seedName = Some (Parsed data)
                /\ data <> JNull
                /\ forall l, prop data "reviews" <> Some (JArr l)) ->
          (readJson d (SAMPLE_REVIEWS_FILE dirname) = None
           \/ readJson d (SAMPLE_REVIEWS_FILE dirname) = Some JNull ->
           getReviewsFromFile dirname d seedName = hard_fallback)
          /\ (forall defaultData,
                readJson d (SAMPLE_REVIEWS_FILE dirname) = Some defaultData ->
                defaultData <> JNull ->
                getReviewsFromFile dirname d seedName
                = match prop defaultData "reviews" with
                  | Some v =>
                      if truthy v then v else JArr [JStr "Excellent service!"]
                  | None => JArr [JStr "Excellent service!"]
                  end)))
  /\ ((forall q c, d !! q = Some c -> seed_ok c) ->
      nonempty_strings (getReviewsFromFile dirname d seedName)).
Proof.
  rewrite getReviewsFromFile_unfold.
  split; [by intros ->|]. split.
  - intros ->. simpl. split; [|split].
    + intros data l Hd Hl. by rewrite (read_reviews_array _ _ _ _ _ Hd Hl).
    + intros Hd. by rewrite (read_reviews_throws _ _ _ Hd).
    + intros Hthrough. rewrite (read_reviews_falls_back _ _ _ Hthrough).
      unfold default_reviews. split.
      * by intros [->| ->].
      * intros defaultData -> Hnull. simpl. by destruct defaultData.
  - intros Hseeds.
    destruct (negb _); [apply nonempty_strings_warning|].
    destruct (read_reviews dirname d (seed_path dirname seedName)) as [v|] eqn:Hv;
      [|apply nonempty_strings_fallback].
    unfold read_reviews, pathExists, readJson in Hv.
    destruct (d !! seed_path dirname seedName) as [[|data]|] eqn:Hd;
      simpl in Hv; try discriminate.
    + destruct data as [| | | | |f]; simpl in Hv; try discriminate;
        try (by eapply default_reviews_nonempty).
      destruct (f !! "reviews") as [w|] eqn:Hw;
        [|by eapply default_reviews_nonempty].
      destruct w; try (by eapply default_reviews_nonempty).
      injection Hv as <-. by apply (Hseeds _ _ Hd (JObj f)).
    + by eapply default_reviews_nonempty.
Qed.

Lemma C3_seed_loader_witness :
  (String.prefix (DATA_DIR app_dir) (seed_path app_dir (Some "../seed.json"))
   = false
   /\ getReviewsFromFile app_dir seed_disk (Some "../seed.json")
      = security_warning)
  /\ getReviewsFromFile app_dir seed_disk (Some "empty.json") = JArr []
  /\ getReviewsFromFile app_dir seed_disk (Some "broken.json") = hard_fallback
  /\ getReviewsFromFile app_dir seed_disk (Some "missing.json")
     = JArr [JStr "Good"; JStr "Bad"]
  /\ getReviewsFromFile app_dir ∅ (Some "missing.json") = hard_fallback
  /\ nonempty_strings (getReviewsFromFile app_dir fresh_disk None).
Proof.
  split; [split; [reflexivity|]|split; [|split; [|split; [|split]]]].
  - destruct (C3_seed_loader_chain app_dir seed_disk (Some "../seed.json"))
      as [Hunsafe _].
    apply Hunsafe. reflexivity.
  - destruct (C3_seed_loader_chain app_dir seed_disk (Some "empty.json"))
      as (_ & Hsafe & _).
    destruct (Hsafe eq_refl) as (Harray & _).
    apply (Harray (JObj {[ "reviews" := JArr [] ]})); reflexivity.
  - destruct (C3_seed_loader_chain app_dir seed_disk (Some "broken.json"))
      as (_ & Hsafe & _).
    destruct (Hsafe eq_refl) as (_ & Hthrows & _).
    apply Hthrows. left. reflexivity.
  - destruct (C3_seed_loader_chain app_dir seed_disk (Some "missing.json"))
      as (_ & Hsafe & _).
    destruct (Hsafe eq_refl) as (_ & _ & Hdefault).
    destruct (Hdefault (or_introl eq_refl)) as [_ Hparsed].
    rewrite (Hparsed (JObj {[ "reviews" := JArr [JStr "Good"; JStr "Bad"] ]})
               eq_refl); [reflexivity|discriminate].
  - destruct (C3_seed_loader_chain app_dir ∅ (Some "missing.json"))
      as (_ & Hsafe & _).
    destruct (Hsafe eq_refl) as (_ & _ & Hdefault).
    destruct (Hdefault (or_introl eq_refl)) as [Hnone _].
    apply Hnone. left. reflexivity.
  - destruct (C3_seed_loader_chain app_dir fresh_disk None) as (_ & _ & Hnonempty).
    apply Hnonempty, fresh_disk_seeds_ok.
Defined.

(** The claim of C3 as it is written fails: a seed file whose [reviews]
    array is empty is returned as it is, so the result is empty; and a
    named file that is not JSON gives the hard-coded list although the
    default seed file is there and parses. *)
Lemma C3_seed_loader_counterexample :
  getReviewsFromFile app_dir seed_disk (Some "empty.json") = JArr []
  /\ ~ nonempty_strings (getReviewsFromFile app_dir seed_disk (Some "empty.json"))
  /\ seed_disk !! SAMPLE_REVIEWS_FILE app_dir = Some sample_seed
  /\ getReviewsFromFile app_dir seed_disk (Some "broken.json") = hard_fallback.
Proof.
  split; [reflexivity|]. split; [|split; reflexivity].
  intros (s & rest & H). vm_compute in H. discriminate.
Qed.

(** C4.  [createClient] on an identifier whose file exists answers 409
    Conflict and leaves the disk as it was.  Otherwise, the write
    succeeding, it answers 201 with the document it has persisted; the
    [reviews] of that document is the list returned by the seed loader, as
    it is and in its order, and its [clientId] is the identifier, whatever
    the client details hold. *)
Theorem C4_create_client dirname d clientId sourceReviewFile clientDetails :
  (pathExists d (getClientDataPath dirname clientId) = true ->
   forall wok,
     createClient dirname d clientId sourceReviewFile clientDetails wok
     = (Respond 409 (message "Client ID already exists."), d))
  /\ (pathExists d (getClientDataPath dirname clientId) = false ->
      exists doc d',
        createClient dirname d clientId sourceReviewFile clientDetails true
        = (Respond 201 doc, d')
        /\ d' !! getClientDataPath dirname clientId = Some (Parsed doc)
        /\ getClientData dirname d' clientId = doc
        /\ prop doc "reviews"
           = Some (getReviewsFromFile dirname d sourceReviewFile)
        /\ prop doc "clientId" = Some (JStr clientId)).
Proof.
  split; intros Hexists.
  - intros wok. unfold createClient. by rewrite Hexists.
  - unfold createClient, writeClientData. rewrite Hexists.
    eexists _, _. split; [reflexivity|].
    split; [apply lookup_insert_eq|].
    split; [apply getClientData_written|].
    split; simpl.
    + apply lookup_insert_eq.
    + rewrite lookup_insert_ne by discriminate. apply lookup_insert_eq.
Qed.

Lemma C4_create_client_witness :
  (pathExists acme_disk (getClientDataPath app_dir "acme123") = true
   /\ createClient app_dir acme_disk "acme123" None
        {[ "clientName" := JStr "Other" ]} true
      = (Respond 409 (message "Client ID already exists."), acme_disk))
  /\ pathExists fresh_disk (getClientDataPath app_dir "acme123") = false
  /\ exists doc d',
       createClient app_dir fresh_disk "acme123" None
         {[ "clientName" := JStr "Acme" ]} true = (Respond 201 doc, d')
       /\ prop doc "reviews" = Some (JArr [JStr "Good"; JStr "Bad"])
       /\ prop doc "clientId" = Some (JStr "acme123").
Proof.
  split; [split; [reflexivity|]|split; [reflexivity|]].
  - destruct (C4_create_client app_dir acme_disk "acme123" None
                {[ "clientName" := JStr "Other" ]}) as [Hconflict _].
    apply Hconflict. reflexivity.
  - destruct (C4_create_client app_dir fresh_disk "acme123" None
                {[ "clientName" := JStr "Acme" ]}) as [_ Hnew].
    destruct (Hnew eq_refl) as (doc & d' & Hcreate & _ & _ & Hreviews & Hid).
    exists doc, d'. repeat split; [exact Hcreate| |exact Hid].
    rewrite Hreviews. reflexivity.
Defined.

(** C5.  [addReview] on a client without a document answers 404 NotFound.
    On an existing client document it puts the text in front of the stored
    reviews: [listReviews] afterwards returns the text first, followed by
    the reviews it returned before, in their order (one element more). *)
Theorem C5_add_review_prepends dirname d clientId text :
  (truthy (getClientData dirname d clientId) = false ->
   forall wok,
     addReview dirname d clientId (JStr text) wok
     = Some (Respond 404 (message "Client not found."), d))
  /\ (forall f old,
        getClientData dirname d clientId = JObj f ->
        reviews_or_empty (f !! "reviews") = Some old ->
        exists d',
          addReview dirname d clientId (JStr text) true
          = Some (Respond 201 (JObj {[ "review" := JStr text ]}), d')
          /\ listReviews dirname d clientId
             = Respond 200 (JObj {[ "reviews" := JArr old ]})
          /\ listReviews dirname d' clientId
             = Respond 200 (JObj {[ "reviews" := JArr (JStr text :: old) ]})).
Proof.
  split.
  - intros Hmissing wok. unfold addReview. by rewrite Hmissing.
  - intros f old Hdata Hold. unfold addReview, writeClientData.
    rewrite Hdata. simpl. rewrite Hold. simpl.
    eexists. split; [reflexivity|].
    split; [by eapply listReviews_of_object|].
    eapply listReviews_of_object; [apply getClientData_written|].
    by rewrite lookup_insert_eq.
Qed.

Lemma C5_add_review_witness :
  (truthy (getClientData app_dir fresh_disk "nobody") = false
   /\ addReview app_dir fresh_disk "nobody" (JStr "Great service!!!") true
      = Some (Respond 404 (message "Client not found."), fresh_disk))
  /\ exists d',
       addReview app_dir acme_disk "acme123" (JStr "Great service!!!") true
       = Some (Respond 201 (JObj {[ "review" := JStr "Great service!!!" ]}), d')
       /\ listReviews app_dir d' "acme123"
          = Respond 200
              (JObj {[ "reviews" :=
                         JArr [JStr "Great service!!!"; JStr "Good";
                               JStr "Bad"; JStr "Good"] ]}).
Proof.
  split; [split; [reflexivity|]|].
  - destruct (C5_add_review_prepends app_dir fresh_disk "nobody"
                "Great service!!!") as [Hmissing _].
    apply Hmissing. reflexivity.
  - destruct (C5_add_review_prepends app_dir acme_disk "acme123"
                "Great service!!!") as [_ Hadd].
    destruct (Hadd _ [JStr "Good"; JStr "Bad"; JStr "Good"] eq_refl eq_refl)
      as (d' & Hresp & _ & Hafter).
    exists d'. split; assumption.
Defined.

(** C6 (as the code has it).  An empty text is turned down with 400 before
    the disk is read.  For a text that is not empty, [deleteReview] answers
    404 NotFound when the client has no document and when the text is not,
    verbatim, among its reviews; when it is, the first occurrence is
    removed, and the reviews before and after it keep their order. *)
Theorem C6_delete_review_nonempty_text dirname d clientId text :
  text <> "" ->
  (forall wok,
     deleteReview dirname d clientId (Some (JStr "")) wok
     = Some (Respond 400 (message "Review text is required."), d))
  /\ (truthy (getClientData dirname d clientId) = false ->
      forall wok,
        deleteReview dirname d clientId (Some (JStr text)) wok
        = Some (Respond 404 (message "Client not found."), d))
  /\ (forall l,
        truthy (getClientData dirname d clientId) = true ->
        reviews_or_empty (prop (getClientData dirname d clientId) "reviews")
        = Some l ->
        (JStr text ∉ l ->
         forall wok,
           deleteReview dirname d clientId (Some (JStr text)) wok
           = Some (Respond 404 (message "Review not found."), d))
        /\ (JStr text ∈ l ->
            exists before after d',
              l = before ++ JStr text :: after
              /\ (JStr text ∉ before)
              /\ deleteReview dirname d clientId (Some (JStr text)) true
                 = Some (Respond 200 (message "Review deleted."), d')
              /\ listReviews dirname d' clientId
                 = Respond 200 (JObj {[ "reviews" := JArr (before ++ after) ]}))).
Proof.
  intros Htext. pose proof (truthy_text _ Htext) as Htruthy.
  split; [reflexivity|]. split.
  - intros Hmissing wok. unfold deleteReview.
    rewrite Htruthy, Hmissing. reflexivity.
  - intros l Hdata Hl. split.
    + intros Habsent wok. unfold deleteReview.
      rewrite Htruthy, Hdata, Hl. simpl.
      apply indexOf_None in Habsent. by rewrite Habsent.
    + intros Hpresent.
      destruct (indexOf l (JStr text)) as [i|] eqn:Hi.
      2:{ apply indexOf_None in Hi. contradiction. }
      destruct (indexOf_Some _ _ _ Hi) as (before & after & Hsplit & Hfirst & _ & Hsp).
      assert (l <> []) as Hne by (intros ->; by apply not_elem_of_nil in Hpresent).
      pose proof (reviews_or_empty_array _ _ Hl Hne) as Hrv.
      destruct (getClientData dirname d clientId) as [| | | | |f] eqn:Hd;
        simpl in Hrv; try discriminate.
      exists before, after. eexists. split; [exact Hsplit|].
      split; [exact Hfirst|].
      unfold deleteReview, writeClientData.
      rewrite Htruthy, Hd. simpl. rewrite Hrv. simpl. rewrite Hi. simpl.
      split; [reflexivity|].
      eapply listReviews_of_object; [apply getClientData_written|].
      rewrite lookup_insert_eq. simpl. by rewrite Hsp.
Qed.

Lemma C6_delete_review_witness :
  "Good" <> ""
  /\ (truthy (getClientData app_dir fresh_disk "nobody") = false
      /\ deleteReview app_dir fresh_disk "nobody" (Some (JStr "Good")) true
         = Some (Respond 404 (message "Client not found."), fresh_disk))
  /\ ((JStr "Good" ∉ [JStr "Fine"])
      /\ deleteReview app_dir
           (<["/srv/app/data/acme123.json" :=
                Parsed (JObj {[ "reviews" := JArr [JStr "Fine"] ]})]> fresh_disk)
           "acme123" (Some (JStr "Good")) true
         = Some (Respond 404 (message "Review not found."),
                 <["/srv/app/data/acme123.json" :=
                     Parsed (JObj {[ "reviews" := JArr [JStr "Fine"] ]})]>
                   fresh_disk))
  /\ exists d',
       deleteReview app_dir acme_disk "acme123" (Some (JStr "Good")) true
       = Some (Respond 200 (message "Review deleted."), d')
       /\ listReviews app_dir d' "acme123"
          = Respond 200 (JObj {[ "reviews" := JArr [JStr "Bad"; JStr "Good"] ]}).
Proof.
  assert (JStr "Good" ∉ [JStr "Fine"]) as Hfine.
  { intros Hin. apply list_elem_of_singleton in Hin. discriminate. }
  split; [discriminate|]. split; [split; [reflexivity|]|split; [split; [exact Hfine|]|]].
  - destruct (C6_delete_review_nonempty_text app_dir fresh_disk "nobody" "Good")
      as (_ & Hmissing & _); [discriminate|].
    apply Hmissing. reflexivity.
  - destruct (C6_delete_review_nonempty_text app_dir
                (<["/srv/app/data/acme123.json" :=
                     Parsed (JObj {[ "reviews" := JArr [JStr "Fine"] ]})]>
                   fresh_disk) "acme123" "Good")
      as (_ & _ & Hexists); [discriminate|].
    destruct (Hexists [JStr "Fine"] eq_refl eq_refl) as [Habsent _].
    apply Habsent. exact Hfine.
  - destruct (C6_delete_review_nonempty_text app_dir acme_disk "acme123" "Good")
      as (_ & _ & Hexists); [discriminate|].
    destruct (Hexists [JStr "Good"; JStr "Bad"; JStr "Good"] eq_refl eq_refl)
      as [_ Hpresent].
    destruct Hpresent as (before & after & d' & Hsplit & Hfirst & Hdel & Hlist).
    { apply list_elem_of_here. }
    exists d'. split; [exact Hdel|].
    destruct before as [|x before].
    + injection Hsplit as <-. exact Hlist.
    + injection Hsplit as <- _. destruct Hfirst. apply list_elem_of_here.
Defined.

(** The claim of C6 as it is written fails on the empty text: the client
    has no document, and the answer is 400, not the NotFound signal 404. *)
Lemma C6_empty_text_counterexample :
  truthy (getClientData app_dir fresh_disk "nobody") = false
  /\ deleteReview app_dir fresh_disk "nobody" (Some (JStr "")) true
     = Some (Respond 400 (message "Review text is required."), fresh_disk)
  /\ ~ (exists body d',
          deleteReview app_dir fresh_disk "nobody" (Some (JStr "")) true
          = Some (Respond 404 body, d')).
Proof.
  split; [reflexivity|]. split; [reflexivity|].
  intros (body & d' & H). discriminate H.
Qed.

(** C7.  On an existing client and a payload accepted by the update
    schema, [updateClient] persists and returns a document with the stored
    [reviews] as they were (so [listReviews] answers as before), with
    [clientId] equal to the identifier, and with every supplied detail
    field at its supplied value. *)
Theorem C7_update_preserves_reviews dirname is_uri d clientId body :
  truthy (getClientData dirname d clientId) = true ->
  clientUpdateSchema is_uri body = true ->
  exists doc d',
    updateClient dirname d clientId body true = (Respond 200 doc, d')
    /\ getClientData dirname d' clientId = doc
    /\ prop doc "reviews" = prop (getClientData dirname d clientId) "reviews"
    /\ listReviews dirname d' clientId = listReviews dirname d clientId
    /\ prop doc "clientId" = Some (JStr clientId)
    /\ (forall k v, body !! k = Some v -> prop doc k = Some v).
Proof.
  intros Hdata Hschema.
  unfold updateClient, writeClientData. rewrite Hdata. simpl.
  eexists _, _. split; [reflexivity|].
  split; [apply getClientData_written|].
  assert ((<["clientId" := JStr clientId]>
             (spread (spread ∅ (own_props (getClientData dirname d clientId)))
                body) : gmap string json) !! "reviews"
          = prop (getClientData dirname d clientId) "reviews") as Hreviews.
  { rewrite lookup_insert_ne by discriminate.
    rewrite lookup_spread, (schema_excludes _ _ "reviews" Hschema eq_refl).
    rewrite lookup_spread, own_props_reviews.
    destruct (prop _ "reviews"); [reflexivity|apply lookup_empty]. }
  split; [exact Hreviews|]. split.
  { unfold listReviews. rewrite getClientData_written, Hdata. simpl.
    by rewrite Hreviews. }
  split; simpl.
  - apply lookup_insert_eq.
  - intros k v Hk. rewrite lookup_insert_ne.
    + by rewrite lookup_spread, Hk.
    + intros <-.
      rewrite (schema_excludes _ _ "clientId" Hschema eq_refl) in Hk.
      discriminate.
Qed.

Lemma C7_update_witness :
  truthy (getClientData app_dir acme_disk "acme123") = true
  /\ clientUpdateSchema https_uri acme_update = true
  /\ exists doc d',
       updateClient app_dir acme_disk "acme123" acme_update true
       = (Respond 200 doc, d')
       /\ prop doc "reviews" = Some (JArr [JStr "Good"; JStr "Bad"; JStr "Good"])
       /\ prop doc "clientName" = Some (JStr "Acme Ltd").
Proof.
  split; [reflexivity|]. split; [reflexivity|].
  destruct (C7_update_preserves_reviews app_dir https_uri acme_disk "acme123"
              acme_update eq_refl eq_refl)
    as (doc & d' & Hupd & _ & Hreviews & _ & _ & Hfields).
  exists doc, d'. split; [exact Hupd|]. split.
  - rewrite Hreviews. reflexivity.
  - apply Hfields. reflexivity.
Defined.

(** C8.  [r] being a value [Math.random()] can return (a binary64 number
    in [0, 1)): [randomReview] answers 404 when the client has no document
    and when its review list is empty or missing; on a non-empty review
    list it answers with the element at an index below the length of the
    list; with the reviews ["A", "B"] the answer is "A" or "B". *)
Theorem C8_random_review dirname d clientId r :
  Binary64.unit_double r = true ->
  (reviews_or_empty (prop (getClientData dirname d clientId) "reviews") = Some [] ->
   randomReview dirname d clientId r
   = Some (Respond 404 (message "Client not found or has no reviews.")))
  /\ (truthy (getClientData dirname d clientId) = false ->
      randomReview dirname d clientId r
      = Some (Respond 404 (message "Client not found or has no reviews.")))
  /\ (forall l,
        prop (getClientData dirname d clientId) "reviews" = Some (JArr l) ->
        l <> [] ->
        exists i v,
          (i < length l)%nat /\ l !! i = Some v
          /\ randomReview dirname d clientId r
             = Some (Respond 200 (JObj {[ "review" := v ]})))
  /\ (prop (getClientData dirname d clientId) "reviews"
      = Some (JArr [JStr "A"; JStr "B"]) ->
      randomReview dirname d clientId r
      = Some (Respond 200 (JObj {[ "review" := JStr "A" ]}))
      \/ randomReview dirname d clientId r
         = Some (Respond 200 (JObj {[ "review" := JStr "B" ]}))).
Proof.
  intros Hr.
  assert (forall l,
            prop (getClientData dirname d clientId) "reviews" = Some (JArr l) ->
            l <> [] ->
            exists i v,
              (i < length l)%nat /\ l !! i = Some v
              /\ randomReview dirname d clientId r
                 = Some (Respond 200 (JObj {[ "review" := v ]}))) as Hpick.
  { intros l Hl Hne. unfold randomReview.
    destruct (getClientData dirname d clientId) as [| | | | |f];
      simpl in Hl; try discriminate.
    simpl. rewrite Hl. simpl.
    destruct l as [|x l]; [contradiction|].
    assert (0 < length (x :: l))%nat as Hlen by (simpl; lia).
    pose proof (floor_mul_range r _ Hr Hlen) as [Hlo Hhi].
    change (length (x :: l) =? 0)%nat with false. cbv iota.
    destruct (Z.ltb_spec (Binary64.floor_mul r (length (x :: l))) 0) as [|_];
      [lia|].
    destruct (lookup_lt_is_Some_2 (x :: l)
                (Z.to_nat (Binary64.floor_mul r (length (x :: l)))))
      as [v Hv]; [lia|].
    exists (Z.to_nat (Binary64.floor_mul r (length (x :: l)))), v.
    split; [lia|]. split; [exact Hv|]. by rewrite Hv. }
  split; [|split; [|split; [exact Hpick|]]].
  - unfold randomReview. intros Hempty.
    destruct (negb (truthy (getClientData dirname d clientId))); [reflexivity|].
    destruct (prop (getClientData dirname d clientId) "reviews") as [v|];
      [|reflexivity].
    simpl in Hempty.
    destruct v as [| [|] | n | s | l | f]; simpl in *; try discriminate;
      try reflexivity.
    + destruct (negb (n =? 0)); [discriminate|reflexivity].
    + destruct (negb (String.eqb s "")); [discriminate|reflexivity].
    + injection Hempty as ->. reflexivity.
  - unfold randomReview. by intros ->.
  - intros Hab. destruct (Hpick _ Hab) as (i & v & Hi & Hv & Hresp);
      [discriminate|].
    rewrite Hresp.
    destruct i as [|[|i]]; simpl in Hv, Hi; [| |lia];
      injection Hv as <-; auto.
Qed.

Lemma C8_random_review_witness :
  Binary64.unit_double one_half = true
  /\ (truthy (getClientData app_dir ab_disk "nobody") = false
      /\ randomReview app_dir ab_disk "nobody" one_half
         = Some (Respond 404 (message "Client not found or has no reviews.")))
  /\ (randomReview app_dir ab_disk "ab" one_half
      = Some (Respond 200 (JObj {[ "review" := JStr "A" ]}))
      \/ randomReview app_dir ab_disk "ab" one_half
         = Some (Respond 200 (JObj {[ "review" := JStr "B" ]}))).
Proof.
  split; [reflexivity|].
  destruct (C8_random_review app_dir ab_disk "nobody" one_half eq_refl)
    as (_ & Hmissing & _).
  destruct (C8_random_review app_dir ab_disk "ab" one_half eq_refl)
    as (_ & _ & _ & Hab).
  split; [split; [reflexivity|]|].
  - apply Hmissing. reflexivity.
  - apply Hab. reflexivity.
Defined.



(** C10.  The failures of the mutating operations come before any write:
    [createClient] on an identifier whose file exists (409),
    [updateClient] (which sends 4404, see C2), [addReview] and
    [deleteReview] on a client without a document (404), and [deleteReview]
    of a text that is not among the reviews (404) all return the disk they
    were given. *)
Theorem C10_failures_write_nothing dirname d clientId wok :
  (pathExists d (getClientDataPath dirname clientId) = true ->
   forall seed details,
     createClient dirname d clientId seed details wok
     = (Respond 409 (message "Client ID already exists."), d))
  /\ (truthy (getClientData dirname d clientId) = false ->
      (forall body,
         updateClient dirname d clientId body wok
         = (Respond 4404 (message "Client not found."), d))
      /\ (forall text,
            addReview dirname d clientId (JStr text) wok
            = Some (Respond 404 (message "Client not found."), d))
      /\ (forall text,
            text <> "" ->
            deleteReview dirname d clientId (Some (JStr text)) wok
            = Some (Respond 404 (message "Client not found."), d)))
  /\ (forall text l,
        text <> "" ->
        truthy (getClientData dirname d clientId) = true ->
        reviews_or_empty (prop (getClientData dirname d clientId) "reviews")
        = Some l ->
        JStr text ∉ l ->
        deleteReview dirname d clientId (Some (JStr text)) wok
        = Some (Respond 404 (message "Review not found."), d)).
Proof.
  split; [|split].
  - intros Hexists seed details. unfold createClient. by rewrite Hexists.
  - intros Hmissing. split; [|split].
    + intros body. unfold updateClient. by rewrite Hmissing.
    + intros text. unfold addReview. by rewrite Hmissing.
    + intros text Htext. unfold deleteReview.
      by rewrite (truthy_text _ Htext), Hmissing.
  - intros text l Htext Hdata Hl Habsent. unfold deleteReview.
    rewrite (truthy_text _ Htext), Hdata, Hl. simpl.
    apply indexOf_None in Habsent. by rewrite Habsent.
Qed.

Lemma C10_failures_witness :
  (pathExists acme_disk (getClientDataPath app_dir "acme123") = true
   /\ snd (createClient app_dir acme_disk "acme123" None ∅ true) = acme_disk)
  /\ (truthy (getClientData app_dir acme_disk "nobody") = false
      /\ snd (updateClient app_dir acme_disk "nobody" acme_update true)
         = acme_disk
      /\ snd <$> addReview app_dir acme_disk "nobody" (JStr "Great!") true
         = Some acme_disk
      /\ snd <$> deleteReview app_dir acme_disk "nobody" (Some (JStr "Good")) true
         = Some acme_disk)
  /\ snd <$> deleteReview app_dir acme_disk "acme123" (Some (JStr "Nope")) true
     = Some acme_disk.
Proof.
  destruct (C10_failures_write_nothing app_dir acme_disk "acme123" true)
    as (Hcreate & _ & Hreview).
  destruct (C10_failures_write_nothing app_dir acme_disk "nobody" true)
    as (_ & Hmissing & _).
  destruct (Hmissing eq_refl) as (Hupd & Hadd & Hdel).
  split; [split; [reflexivity|]|split; [split; [reflexivity|]|]].
  - by rewrite Hcreate.
  - split; [by rewrite Hupd|]. split; [by rewrite Hadd|].
    rewrite Hdel; [reflexivity|discriminate].
  - rewrite (Hreview "Nope" [JStr "Good"; JStr "Bad"; JStr "Good"]);
      [reflexivity|discriminate|reflexivity|reflexivity|].
    intros Hin. repeat (apply elem_of_cons in Hin as [Hin|Hin]; [discriminate|]).
    by apply not_elem_of_nil in Hin.
Defined.

(** ** Paths made of file names

    [path.join] of a normalised directory and a file name is the
    directory, a separator and the name, whatever the directory is. *)

Local Open Scope nat_scope.

Lemma simple_name_spec s :
  simple_name s = true ->
  contains_slash s = false /\ s <> "" /\ s <> "." /\ s <> "..".
Proof.
  unfold simple_name. intros H.
  repeat (apply andb_true_iff in H as [H ?]).
  repeat match goal with
         | E : negb _ = true |- _ => apply negb_true_iff in E
         end.
  repeat split; try assumption; intros ->; discriminate.
Qed.

Lemma step_simple allow stack seg :
  simple_name seg = true -> Path.step allow stack seg = seg :: stack.
Proof.
  intros H. destruct (simple_name_spec _ H) as (_ & H1 & H2 & H3).
  unfold Path.step.
  destruct (String.eqb_spec seg ""); [contradiction|].
  destruct (String.eqb_spec seg "."); [contradiction|].
  destruct (String.eqb_spec seg ".."); [contradiction|]. reflexivity.
Qed.

Lemma dots_head r rest :
  forallb (String.eqb "..") (r :: rest) = true ->
  r = ".." /\ forallb (String.eqb "..") rest = true.
Proof.
  intros H.
  change (String.eqb ".." r && forallb (String.eqb "..") rest = true) in H.
  apply andb_true_iff in H as [Hr Hrest]. apply String.eqb_eq in Hr. auto.
Qed.

Lemma dots_stack_ok stack :
  forallb (String.eqb "..") stack = true -> stack_ok true stack = true.
Proof.
  destruct stack as [|top rest]; [reflexivity|].
  intros H. apply dots_head in H as [-> H].
  change (stack_ok true (".." :: rest))
    with (simple_name ".." && stack_ok true rest
          || true && String.eqb ".." ".." && forallb (String.eqb "..") rest).
  rewrite H. apply orb_true_r.
Qed.

Lemma stack_ok_below allow top rest :
  stack_ok allow (top :: rest) = true -> stack_ok allow rest = true.
Proof.
  simpl. intros H. apply orb_true_iff in H as [H|H].
  - by apply andb_true_iff in H as [_ H].
  - apply andb_true_iff in H as [H Hrest]. apply andb_true_iff in H as [-> _].
    by apply dots_stack_ok.
Qed.

Lemma step_ok allow stack seg :
  contains_slash seg = false ->
  stack_ok allow stack = true ->
  stack_ok allow (Path.step allow stack seg) = true.
Proof.
  intros Hslash Hok. unfold Path.step.
  destruct (String.eqb_spec seg "") as [->|Hne]; [assumption|].
  destruct (String.eqb_spec seg ".") as [->|Hdot]; [assumption|]. simpl.
  destruct (String.eqb_spec seg "..") as [->|Hdots].
  - destruct stack as [|top rest].
    + by destruct allow.
    + destruct (String.eqb_spec top "..") as [->|Htop].
      * destruct allow; [|assumption].
        simpl in Hok. simpl. by rewrite Hok.
      * by apply stack_ok_below in Hok.
  - simpl. unfold simple_name. rewrite Hslash, Hok.
    destruct (String.eqb_spec seg ""); [contradiction|].
    destruct (String.eqb_spec seg "."); [contradiction|].
    destruct (String.eqb_spec seg ".."); [contradiction|]. reflexivity.
Qed.

Lemma segments_no_slashes p :
  Forall (fun seg => contains_slash seg = false) (Path.segments p).
Proof.
  induction p as [|c p IH]; simpl.
  - by constructor.
  - destruct (Ascii.eqb c "/") eqn:Hc; [by constructor|].
    destruct (Path.segments p) as [|seg more].
    + constructor; [|constructor]. simpl. by rewrite Hc.
    + inversion IH as [|? ? Hseg Hmore]; subst.
      constructor; [|assumption]. simpl. by rewrite Hc.
Qed.

Lemma fold_step_ok allow segs stack :
  Forall (fun seg => contains_slash seg = false) segs ->
  stack_ok allow stack = true ->
  stack_ok allow (fold_left (Path.step allow) segs stack) = true.
Proof.
  intros Hsegs. revert stack.
  induction Hsegs as [|seg segs Hseg _ IH]; intros stack Hok; simpl;
    [assumption|].
  apply IH. by apply step_ok.
Qed.

(** Normalising again the segments [normalizeString] has kept gives them
    back. *)
Lemma replay_stack allow stack :
  stack_ok allow stack = true ->
  fold_left (Path.step allow) (rev stack) [] = stack.
Proof.
  induction stack as [|top rest IH]; [reflexivity|].
  intros Hok. simpl rev. rewrite fold_left_app. simpl.
  rewrite IH by (by apply stack_ok_below in Hok).
  simpl in Hok. apply orb_true_iff in Hok as [H|H].
  - apply andb_true_iff in H as [H _]. by apply step_simple.
  - apply andb_true_iff in H as [H Hrest]. apply andb_true_iff in H as [-> H].
    apply String.eqb_eq in H as ->. unfold Path.step. simpl.
    destruct rest as [|r rest]; [reflexivity|].
    by apply dots_head in Hrest as [-> _].
Qed.

Lemma stack_ok_no_slashes allow stack :
  stack_ok allow stack = true ->
  Forall (fun seg => contains_slash seg = false /\ seg <> "") stack.
Proof.
  induction stack as [|top rest IH]; [by constructor|].
  intros Hok. constructor; [|by apply IH, (stack_ok_below _ top)].
  simpl in Hok. apply orb_true_iff in Hok as [H|H].
  - apply andb_true_iff in H as [H _].
    destruct (simple_name_spec _ H) as (? & ? & _). by split.
  - apply andb_true_iff in H as [H _]. apply andb_true_iff in H as [_ H].
    apply String.eqb_eq in H as ->. by split.
Qed.

Lemma segments_join_segments segs :
  segs <> [] ->
  Forall (fun seg => contains_slash seg = false /\ seg <> "") segs ->
  Path.segments (Path.join_segments segs) = segs.
Proof.
  induction segs as [|seg rest IH]; [contradiction|].
  intros _ Hsegs. inversion Hsegs as [|? ? [Hseg _] Hrest]; subst.
  destruct rest as [|seg' rest].
  - simpl. by apply segments_no_slash.
  - change (Path.join_segments (seg :: seg' :: rest))
      with (seg +:+ "/" +:+ Path.join_segments (seg' :: rest)).
    rewrite segments_append_slash, (segments_no_slash _ Hseg), IH;
      [reflexivity|discriminate|assumption].
Qed.

Lemma join_segments_snoc segs seg :
  segs <> [] ->
  Path.join_segments (segs ++ [seg]) = Path.join_segments segs +:+ "/" +:+ seg.
Proof.
  induction segs as [|x rest IH]; [contradiction|]. intros _.
  destruct rest as [|y rest]; [reflexivity|].
  change (Path.join_segments ((x :: y :: rest) ++ [seg]))
    with (x +:+ "/" +:+ Path.join_segments ((y :: rest) ++ [seg])).
  rewrite IH by discriminate.
  change (Path.join_segments (x :: y :: rest))
    with (x +:+ "/" +:+ Path.join_segments (y :: rest)).
  by rewrite !append_assoc.
Qed.

Lemma isAbsolute_append a b :
  a <> "" -> Path.isAbsolute (a +:+ b) = Path.isAbsolute a.
Proof. destruct a; [contradiction|reflexivity]. Qed.

Lemma join_segments_head seg rest :
  exists tail, Path.join_segments (seg :: rest) = seg +:+ tail.
Proof.
  destruct rest as [|y rest].
  - exists "". simpl. by rewrite append_empty_r.
  - by exists ("/" +:+ Path.join_segments (y :: rest)).
Qed.

Lemma join_segments_nonempty segs :
  segs <> [] ->
  Forall (fun seg => contains_slash seg = false /\ seg <> "") segs ->
  Path.join_segments segs <> ""
  /\ Path.isAbsolute (Path.join_segments segs) = false.
Proof.
  destruct segs as [|seg rest]; [contradiction|]. intros _ Hsegs.
  inversion Hsegs as [|? ? [Hslash Hne] _]; subst.
  destruct (join_segments_head seg rest) as [tail ->].
  destruct seg as [|c seg]; [contradiction|]. split; [discriminate|].
  simpl in *. by apply orb_false_iff in Hslash as [-> _].
Qed.

Lemma rev_nonempty {A} (l : list A) : l <> [] -> rev l <> [].
Proof.
  destruct l as [|x l]; [contradiction|]. intros _ H.
  simpl in H. by destruct (rev l).
Qed.

Lemma stack_segments allow stack :
  stack_ok allow stack = true ->
  Forall (fun seg => contains_slash seg = false /\ seg <> "") (rev stack).
Proof.
  intros H. apply List.Forall_rev. by eapply stack_ok_no_slashes.
Qed.

(** [normalize] on a path without a trailing slash whose normalisation
    keeps some segment. *)
Lemma normalize_kept p stack :
  p <> "" -> endsWith p "/" = false ->
  fold_left (Path.step (negb (Path.isAbsolute p))) (Path.segments p) [] = stack ->
  stack_ok (negb (Path.isAbsolute p)) stack = true -> stack <> [] ->
  Path.normalize p
  = (if Path.isAbsolute p then "/" else "") +:+ Path.join_segments (rev stack).
Proof.
  intros Hp Htrail Hfold Hok Hne. unfold Path.normalize, Path.normalizeString.
  destruct (String.eqb_spec p ""); [contradiction|].
  rewrite Htrail, Hfold.
  destruct (join_segments_nonempty (rev stack)) as [Hq _];
    [by apply rev_nonempty|by eapply stack_segments|].
  destruct (String.eqb_spec (Path.join_segments (rev stack)) "");
    [contradiction|].
  by destruct (Path.isAbsolute p).
Qed.

(** Joining a normalised path and a file name appends the name. *)
Lemma join_normal (abs : bool) stack name :
  stack_ok (negb abs) stack = true -> stack <> [] ->
  simple_name name = true ->
  Path.join ((if abs then "/" else "") +:+ Path.join_segments (rev stack)) name
  = ((if abs then "/" else "") +:+ Path.join_segments (rev stack))
    +:+ "/" +:+ name.
Proof.
  intros Hok Hne Hname.
  destruct (simple_name_spec _ Hname) as (Hslash & Hn & _ & _).
  pose proof (rev_nonempty _ Hne) as Hrev.
  pose proof (stack_segments _ _ Hok) as Hsegs.
  destruct (join_segments_nonempty _ Hrev Hsegs) as [Hq Hrel].
  set (js := Path.join_segments (rev stack)) in *.
  set (root := (if abs then "/" else "") +:+ js).
  assert (root <> "") as Hroot.
  { unfold root. destruct abs; [discriminate|exact Hq]. }
  assert (Path.isAbsolute root = abs) as Habs.
  { unfold root. destruct abs; [reflexivity|exact Hrel]. }
  assert (Path.segments root = (if abs then [""] else []) ++ rev stack) as Hsr.
  { unfold root, js. destruct abs.
    - change ("/" +:+ Path.join_segments (rev stack))
        with ("" +:+ "/" +:+ Path.join_segments (rev stack)).
      rewrite segments_append_slash. simpl.
      by rewrite segments_join_segments.
    - by apply segments_join_segments. }
  unfold Path.join.
  destruct (String.eqb_spec root ""); [contradiction|].
  destruct (String.eqb_spec name ""); [contradiction|].
  assert (root +:+ "/" +:+ name <> "") as Hjoined.
  { destruct root; [contradiction|discriminate]. }
  destruct (String.eqb_spec (root +:+ "/" +:+ name) ""); [contradiction|].
  rewrite (normalize_kept _ (name :: stack)).
  - rewrite isAbsolute_append, Habs by assumption.
    simpl rev. rewrite join_segments_snoc by assumption. fold js.
    unfold root. by rewrite !append_assoc.
  - assumption.
  - rewrite <- append_assoc. by apply no_trailing_slash.
  - rewrite isAbsolute_append, Habs by assumption.
    rewrite segments_append_slash, (segments_no_slash _ Hslash), Hsr.
    rewrite !fold_left_app.
    assert (fold_left (Path.step (negb abs)) (if abs then [""] else []) [] = [])
      as -> by (by destruct abs).
    rewrite replay_stack by assumption. simpl. by apply step_simple.
  - rewrite isAbsolute_append, Habs by assumption.
    simpl. by rewrite Hname, Hok.
  - discriminate.
Qed.

(** The data directory is a normalised path that ends with [data]. *)
Lemma DATA_DIR_normal dirname :
  exists (abs : bool) stack,
    stack_ok (negb abs) stack = true /\ stack <> []
    /\ DATA_DIR dirname
       = (if abs then "/" else "") +:+ Path.join_segments (rev stack).
Proof.
  destruct (String.eqb_spec dirname "") as [->|Hne].
  { by exists false, ["data"]. }
  set (abs := Path.isAbsolute dirname).
  set (stack := fold_left (Path.step (negb abs)) (Path.segments dirname) []).
  assert (stack_ok (negb abs) stack = true) as Hok.
  { apply fold_step_ok; [apply segments_no_slashes|reflexivity]. }
  exists abs, ("data" :: stack). split; [simpl; by rewrite Hok|].
  split; [discriminate|].
  unfold DATA_DIR, Path.join.
  destruct (String.eqb_spec dirname ""); [contradiction|]. simpl.
  assert (dirname +:+ "/" +:+ "data" <> "") as Hjoined.
  { destruct dirname; [contradiction|discriminate]. }
  destruct (String.eqb_spec (dirname +:+ "/" +:+ "data") "");
    [contradiction|].
  rewrite (normalize_kept _ ("data" :: stack)).
  - by rewrite isAbsolute_append.
  - assumption.
  - change (dirname +:+ "/" +:+ "data") with (dirname +:+ ("/" +:+ "data")).
    rewrite <- append_assoc. by apply no_trailing_slash.
  - rewrite isAbsolute_append by assumption. fold abs.
    rewrite segments_append_slash, fold_left_app. fold stack. reflexivity.
  - rewrite isAbsolute_append by assumption. fold abs.
    simpl. by rewrite Hok.
  - discriminate.
Qed.

Lemma join_data_dir dirname name :
  simple_name name = true ->
  Path.join (DATA_DIR dirname) name = DATA_DIR dirname +:+ "/" +:+ name.
Proof.
  intros Hname. destruct (DATA_DIR_normal dirname) as (abs & stack & Hok & Hne & ->).
  by apply join_normal.
Qed.

(** ** Files of the data directory *)

Lemma prefix_append a b : String.prefix a (a +:+ b) = true.
Proof.
  induction a as [|c a IH]; [by destruct b|].
  rewrite append_cons. simpl. destruct (ascii_dec c c); [exact IH|contradiction].
Qed.

Lemma append_inv_head a b c : a +:+ b = a +:+ c -> b = c.
Proof.
  induction a as [|x a IH]; [auto|]. rewrite !append_cons. intros [= H]. auto.
Qed.

Lemma append_inv_tail a b c : a +:+ c = b +:+ c -> a = b.
Proof.
  revert b. induction a as [|x a IH]; intros [|y b] H.
  - reflexivity.
  - exfalso. apply (f_equal String.length) in H.
    change ("" +:+ c) with c in H. rewrite append_cons in H. simpl in H.
    rewrite length_append in H. lia.
  - exfalso. apply (f_equal String.length) in H.
    change ("" +:+ c) with c in H. rewrite append_cons in H. simpl in H.
    rewrite length_append in H. lia.
  - rewrite !append_cons in H. injection H as -> H. f_equal. by apply IH.
Qed.

Lemma simple_name_long s :
  contains_slash s = false -> (3 <= String.length s)%nat ->
  simple_name s = true.
Proof.
  intros Hslash Hlen. unfold simple_name. rewrite Hslash.
  destruct (String.eqb_spec s "") as [->|_]; [simpl in Hlen; lia|].
  destruct (String.eqb_spec s ".") as [->|_]; [simpl in Hlen; lia|].
  destruct (String.eqb_spec s "..") as [->|_]; [simpl in Hlen; lia|].
  reflexivity.
Qed.

Lemma simple_name_json id :
  contains_slash id = false -> simple_name (id +:+ ".json") = true.
Proof.
  intros H. apply simple_name_long.
  - by rewrite contains_slash_append, H.
  - rewrite length_append. simpl. lia.
Qed.

Lemma inside_root_below root name :
  inside_root root (root +:+ "/" +:+ name) = true.
Proof.
  unfold inside_root. rewrite <- append_assoc, prefix_append. apply orb_true_r.
Qed.

Lemma getClientDataPath_simple dirname clientId :
  contains_slash clientId = false ->
  getClientDataPath dirname clientId
  = DATA_DIR dirname +:+ "/" +:+ clientId +:+ ".json".
Proof.
  intros H. unfold getClientDataPath. by rewrite join_data_dir by by apply simple_name_json.
Qed.

Lemma substring_length_le i m s :
  (String.length (substring i m s) <= String.length s)%nat.
Proof.
  revert i m. induction s as [|c s IH]; intros [|i] [|m]; simpl;
    try lia.
  - specialize (IH 0%nat m). lia.
  - specialize (IH i 0%nat). lia.
  - specialize (IH i (S m)). lia.
Qed.

Lemma entry_name_below dir name :
  contains_slash name = false -> name <> "" ->
  entry_name dir (dir +:+ "/" +:+ name) = Some name.
Proof.
  intros Hslash Hne. unfold entry_name. cbv zeta. rewrite <- append_assoc.
  set (pre := dir +:+ "/"). rewrite prefix_append, length_append.
  replace (String.length pre + String.length name - String.length pre)%nat
    with (String.length name) by lia.
  assert (substring (String.length pre) (String.length name) (pre +:+ name)
          = name) as ->.
  { rewrite <- (Nat.add_0_r (String.length pre)).
    by rewrite substring_append_skip, substring_full. }
  rewrite Hslash. by destruct (String.eqb_spec name "").
Qed.

Lemma entry_name_inv dir p name :
  entry_name dir p = Some name ->
  p = dir +:+ "/" +:+ name /\ contains_slash name = false /\ name <> "".
Proof.
  unfold entry_name. cbv zeta.
  destruct (String.prefix _ _) eqn:Hpre; [|discriminate].
  destruct (_ || _) eqn:E; [discriminate|]. intros [= Hname].
  apply orb_false_iff in E as [Hne Hslash]. rewrite Hname in Hne, Hslash.
  apply String.eqb_neq in Hne. split; [|by split].
  apply prefix_correct in Hpre.
  assert (String.length (dir +:+ "/") <= String.length p)%nat as Hlen.
  { rewrite <- Hpre at 1. apply substring_length_le. }
  rewrite <- (substring_split (String.length (dir +:+ "/")) p) by assumption.
  by rewrite Hpre, Hname, append_assoc.
Qed.

Lemma elem_of_readdir d dir name :
  In name (readdir d dir)
  <-> contains_slash name = false /\ name <> ""
      /\ is_Some (d !! (dir +:+ "/" +:+ name)).
Proof.
  rewrite <- list_elem_of_In. unfold readdir. rewrite list_elem_of_omap. split.
  - intros ([p c] & Hin & Hname). apply elem_of_map_to_list in Hin.
    apply entry_name_inv in Hname as (Hp & Hslash & Hne). simpl in Hp.
    subst p. eauto.
  - intros (Hslash & Hne & [c Hc]). exists (dir +:+ "/" +:+ name, c).
    split; [by apply elem_of_map_to_list|]. by apply entry_name_below.
Qed.

Lemma endsWith_append a b : endsWith (a +:+ b) b = true.
Proof.
  unfold endsWith. rewrite length_append.
  replace (String.length b <=? String.length a + String.length b) with true
    by (symmetry; apply Nat.leb_le; lia).
  replace (String.length a + String.length b - String.length b)
    with (String.length a + 0) by lia.
  rewrite substring_append_skip, substring_full. apply String.eqb_refl.
Qed.

Lemma index_json_alphanum id :
  all_chars is_alphanum_char id = true ->
  index 0 ".json" (id +:+ ".json") = Some (String.length id).
Proof.
  induction id as [|c id IH]; [reflexivity|]. intros H.
  apply andb_true_iff in H as [Hc Hid]. rewrite append_cons.
  change (index 0 ".json" (String c (id +:+ ".json")))
    with (if String.prefix ".json" (String c (id +:+ ".json")) then Some 0
          else match index 0 ".json" (id +:+ ".json") with
               | Some n => Some (S n)
               | None => None
               end).
  rewrite (IH Hid).
  replace (String.prefix ".json" (String c (id +:+ ".json"))) with false;
    [reflexivity|].
  symmetry. cbn [String.prefix].
  destruct (ascii_dec "." c) as [<-|_]; [discriminate Hc|reflexivity].
Qed.

Lemma extension_only_alphanum id :
  all_chars is_alphanum_char id = true ->
  extension_only (id +:+ ".json") = true.
Proof.
  intros H. unfold extension_only. rewrite (index_json_alphanum _ H).
  rewrite length_append. apply Nat.eqb_refl.
Qed.

Lemma replace_first_alphanum id :
  all_chars is_alphanum_char id = true ->
  replace_first (id +:+ ".json") ".json" = id.
Proof.
  intros H. apply (append_inv_tail _ _ ".json").
  by apply replace_first_extension, extension_only_alphanum.
Qed.

(** ** The request schemas *)

Lemma all_chars_no_slash (class : ascii -> bool) s :
  class "/"%char = false -> all_chars class s = true ->
  contains_slash s = false.
Proof.
  intros Hclass. induction s as [|c s IH]; [reflexivity|]. simpl.
  intros H. apply andb_true_iff in H as [Hc Hs]. rewrite (IH Hs).
  destruct (Ascii.eqb_spec c "/") as [->|_]; [congruence|reflexivity].
Qed.

Lemma allowed_keys_lookup body keys k v :
  allowed_keys body keys = true -> body !! k = Some v ->
  mem_string k keys = true.
Proof.
  unfold allowed_keys. rewrite forallb_forall. intros Hall Hk.
  apply (Hall (k, v)). apply list_elem_of_In, elem_of_map_to_list, Hk.
Qed.

Lemma string_key_required body k ok :
  string_key body k ok true = true ->
  exists s, body !! k = Some (JStr s) /\ ok s = true.
Proof.
  unfold string_key. destruct (body !! k) as [[]|]; try discriminate. eauto.
Qed.

Lemma string_key_optional body k ok :
  string_key body k ok false = true ->
  body !! k = None \/ exists s, body !! k = Some (JStr s) /\ ok s = true.
Proof.
  unfold string_key. destruct (body !! k) as [[]|]; try discriminate; eauto.
Qed.

(** What [clientCreateSchema] lets through: an alphanumeric [clientId] of
    3 to 50 characters, and no seed name or one that is empty or a
    [.json] file name. *)
Lemma create_schema_fields is_uri body :
  clientCreateSchema is_uri body = true ->
  (exists clientId,
     body !! "clientId" = Some (JStr clientId)
     /\ all_chars is_alphanum_char clientId = true
     /\ (3 <= String.length clientId <= 50)%nat)
  /\ (body !! "sourceReviewFile" = None
      \/ exists s, body !! "sourceReviewFile" = Some (JStr s)
                   /\ (s = "" \/ is_json_file_name s = true)).
Proof.
  unfold clientCreateSchema. intros H.
  apply andb_true_iff in H as [H Hseed].
  do 5 (apply andb_true_iff in H as [H _]).
  apply andb_true_iff in H as [_ Hid]. split.
  - apply string_key_required in Hid as (s & Hs & Hok).
    apply andb_true_iff in Hok as [Hok Hmax].
    apply andb_true_iff in Hok as [Halnum Hmin].
    apply Nat.leb_le in Hmin, Hmax. eauto.
  - apply string_key_optional in Hseed as [?|(s & Hs & Hok)]; [by left|].
    right. exists s. split; [assumption|].
    apply orb_true_iff in Hok as [Hok|?]; [|by right].
    left. by apply String.eqb_eq.
Qed.

Lemma create_schema_name is_uri body :
  clientCreateSchema is_uri body = true ->
  exists clientName,
    body !! "clientName" = Some (JStr clientName) /\ clientName <> "".
Proof.
  unfold clientCreateSchema. intros H.
  do 5 (apply andb_true_iff in H as [H _]).
  apply andb_true_iff in H as [_ Hname].
  apply string_key_required in Hname as (s & Hs & Hok).
  apply andb_true_iff in Hok as [Hmin _]. apply Nat.leb_le in Hmin.
  exists s. split; [assumption|]. intros ->. simpl in Hmin. lia.
Qed.

Lemma json_file_name_simple s :
  is_json_file_name s = true -> simple_name s = true /\ s <> "".
Proof.
  unfold is_json_file_name. intros H.
  apply andb_true_iff in H as [H Hlen]. apply andb_true_iff in H as [Hchars _].
  apply Nat.leb_le in Hlen. split.
  - apply simple_name_long; [|lia].
    by apply (all_chars_no_slash is_file_char).
  - intros ->. simpl in Hlen. lia.
Qed.

Lemma mem_update_keys k :
  mem_string k
    ["clientId"; "clientName"; "googleReviewLink"; "logoUrl"; "primaryColor";
     "secondaryColor"; "sourceReviewFile"] = false ->
  mem_string k
    ["clientName"; "googleReviewLink"; "logoUrl"; "primaryColor";
     "secondaryColor"] = false.
Proof.
  unfold mem_string. cbn [existsb]. intros H.
  repeat (apply orb_false_iff in H as [? H]).
  repeat (apply orb_false_iff; split; try assumption).
Qed.

Local Close Scope nat_scope.

(** ** Documents on the disk, and their removal *)

Lemma lookup_remove_eq (d : disk) p : remove d p !! p = None.
Proof.
  unfold remove. apply map_lookup_filter_None_2.
  destruct (d !! p) as [c|]; [right|by left].
  intros x _ [H _]. by apply H.
Qed.

Lemma lookup_remove_below (d : disk) p q :
  below p q = true -> remove d p !! q = None.
Proof.
  intros Hq. unfold remove. apply map_lookup_filter_None_2.
  destruct (d !! q) as [c|]; [right|by left].
  intros x _ [_ H]. unfold below in Hq. simpl in H. congruence.
Qed.

Lemma lookup_remove_other (d : disk) p q :
  q <> p -> below p q = false -> remove d p !! q = d !! q.
Proof.
  intros Hne Hq. unfold remove. destruct (d !! q) as [c|] eqn:E.
  - by apply map_lookup_filter_Some_2.
  - apply map_lookup_filter_None_2. by left.
Qed.

Lemma pathExists_false (d : disk) p : pathExists d p = false <-> d !! p = None.
Proof. unfold pathExists. by destruct (d !! p). Qed.

Lemma pathExists_written (d : disk) p c : pathExists (<[p := c]> d) p = true.
Proof. unfold pathExists. by rewrite lookup_insert_eq. Qed.

Lemma nothing_below_acme p :
  below (getClientDataPath app_dir "acme123") p = true -> fresh_disk !! p = None.
Proof.
  intros Hbelow. unfold fresh_disk. apply lookup_singleton_None. intros <-.
  vm_compute in Hbelow. discriminate.
Qed.

Lemma getClientData_stored dirname d clientId data :
  d !! getClientDataPath dirname clientId = Some (Parsed data) ->
  getClientData dirname d clientId = data.
Proof. intros H. unfold getClientData, pathExists, readJson. by rewrite H. Qed.

Lemma getClientData_falsy dirname d clientId c :
  d !! getClientDataPath dirname clientId = Some c ->
  falsy_content c = true ->
  truthy (getClientData dirname d clientId) = false.
Proof.
  intros Hd Hc. unfold getClientData, pathExists, readJson. rewrite Hd.
  destruct c as [|j]; [reflexivity|]. simpl in Hc.
  by apply negb_true_iff in Hc.
Qed.

Lemma truthy_set_prop data k v : truthy (set_prop data k v) = truthy data.
Proof. by destruct data. Qed.

Lemma details_set_reviews data v :
  delete "reviews" (own_props (set_prop data "reviews" v))
  = delete "reviews" (own_props data).
Proof. destruct data; try reflexivity. simpl. apply delete_insert_eq. Qed.

Lemma default_reviews_truthy dirname d v :
  default_reviews dirname d = Some v -> truthy v = true.
Proof.
  unfold default_reviews. destruct (readJson d _) as [dd|]; [|discriminate].
  simpl. destruct dd as [| | | | |f]; try discriminate; simpl;
    intros [= <-]; try reflexivity.
  destruct (f !! "reviews") as [w|]; [|reflexivity].
  by destruct (truthy w) eqn:E.
Qed.

(** The seed loader never returns a falsy value. *)
Lemma getReviewsFromFile_truthy dirname d seedName :
  truthy (getReviewsFromFile dirname d seedName) = true.
Proof.
  rewrite getReviewsFromFile_unfold. destruct (negb _); [reflexivity|].
  destruct (read_reviews dirname d (seed_path dirname seedName)) as [v|] eqn:Hv;
    [|reflexivity].
  unfold read_reviews in Hv. destruct (pathExists d _);
    [|by eapply default_reviews_truthy].
  destruct (readJson d _) as [data|]; [|discriminate]. simpl in Hv.
  destruct data as [| | | | |f]; try discriminate; simpl in Hv;
    try (by eapply default_reviews_truthy).
  destruct (f !! "reviews") as [w|]; [|by eapply default_reviews_truthy].
  destruct w; try (by eapply default_reviews_truthy).
  by injection Hv as <-.
Qed.

Lemma post_client_created dirname is_uri joi_message d body doc d' :
  postClient dirname is_uri joi_message d body true = (Respond 201 doc, d') ->
  exists clientId seed,
    clientCreateSchema is_uri body = true
    /\ body !! "clientId" = Some (JStr clientId)
    /\ pathExists d (getClientDataPath dirname clientId) = false
    /\ doc = JObj (<["reviews" := getReviewsFromFile dirname d seed]>
                     (delete "sourceReviewFile" body))
    /\ d' = <[getClientDataPath dirname clientId := Parsed doc]> d.
Proof.
  unfold postClient.
  destruct (clientCreateSchema is_uri body) eqn:Hschema; [|discriminate].
  destruct (create_schema_fields _ _ Hschema) as [(clientId & Hid & _) _].
  rewrite Hid. unfold createClient, writeClientData.
  destruct (pathExists d _) eqn:Hnew; [discriminate|]. simpl.
  intros [= <- <-]. eexists clientId, _. do 3 (split; [done|]).
  assert (<["clientId" := JStr clientId]>
            (spread ∅ (delete "sourceReviewFile" (delete "clientId" body)))
          = delete "sourceReviewFile" body) as ->; [|done].
  apply map_eq. intros k. destruct (decide (k = "clientId")) as [->|Hk].
  - rewrite lookup_insert_eq, lookup_delete_ne by done. by rewrite Hid.
  - rewrite lookup_insert_ne, lookup_spread by done.
    destruct (decide (k = "sourceReviewFile")) as [->|Hs].
    + by rewrite !lookup_delete_eq.
    + rewrite !(lookup_delete_ne _ "sourceReviewFile") by done.
      rewrite lookup_delete_ne by done. by destruct (body !! k).
Qed.

(** ** The loop of the migration *)

(** The loop of the migration, file by file: it throws when reading one of
    the files does, and queues the commands of each file otherwise. *)
Lemma queue_files_commands dirname d files pipe :
  queue_files dirname d files pipe
  = if existsb (fun file => throws_on d (Path.join (DATA_DIR dirname) file)) files
    then None
    else Some (pipe ++ flat_map (commands_of dirname d) files).
Proof.
  revert pipe. induction files as [|file files IH]; intros pipe.
  - simpl. by rewrite app_nil_r.
  - cbn [queue_files existsb flat_map]. unfold throws_on at 1, commands_of at 1.
    unfold pathExists, readJson.
    destruct (d !! Path.join (DATA_DIR dirname) file) as [[|data]|]; simpl;
      [reflexivity| |apply IH].
    destruct data as [| | | | |f]; simpl; try apply IH; [reflexivity|].
    destruct (f !! "clientId") as [clientId|]; [|apply IH].
    destruct (truthy clientId); [|apply IH].
    rewrite IH. destruct (existsb _ files); [reflexivity|].
    by rewrite <- app_assoc.
Qed.

Lemma commands_of_inv dirname d file c :
  In c (commands_of dirname d file) ->
  exists key value,
    d !! Path.join (DATA_DIR dirname) file = Some (Parsed value)
    /\ prop value "clientId" = Some key /\ truthy key = true
    /\ commands_of dirname d file = [KvSet key value; KvSadd "clients" key].
Proof.
  unfold commands_of.
  destruct (d !! Path.join (DATA_DIR dirname) file) as [[|value]|];
    try (by intros []).
  destruct (prop value "clientId") as [key|] eqn:Hid; [|by intros []].
  destruct (truthy key) eqn:Hkey; [|by intros []].
  intros _. exists key, value. by rewrite Hid, Hkey.
Qed.

Lemma migrate_executed dirname kv_url d files exec_ok commands :
  migrate dirname kv_url d files exec_ok = Executed commands ->
  commands = flat_map (commands_of dirname d) files.
Proof.
  unfold migrate. destruct kv_url as [url|]; [|discriminate].
  destruct (String.eqb url ""); [discriminate|].
  rewrite queue_files_commands. destruct (existsb _ files); [discriminate|].
  destruct exec_ok; [|discriminate]. by intros [= <-].
Qed.

(** ** Further properties of the code *)

(** X1.  A client identifier without ["/"] names the file [<id>.json]
    directly in the data directory, whatever the installation directory
    is: the path is the data directory, a separator and the file name, it
    lies inside the data root, and [fs.readdir] of the data directory
    shows it under that name. *)
Theorem X1_id_without_slash_stays_in_data_dir dirname clientId :
  contains_slash clientId = false ->
  getClientDataPath dirname clientId
  = DATA_DIR dirname +:+ "/" +:+ clientId +:+ ".json"
  /\ inside_root (DATA_DIR dirname) (getClientDataPath dirname clientId) = true
  /\ entry_name (DATA_DIR dirname) (getClientDataPath dirname clientId)
     = Some (clientId +:+ ".json").
Proof.
  intros Hslash. rewrite getClientDataPath_simple by assumption.
  split; [reflexivity|]. split; [apply inside_root_below|].
  apply entry_name_below.
  - by rewrite contains_slash_append, Hslash.
  - destruct clientId; discriminate.
Qed.

Lemma X1_id_without_slash_witness :
  contains_slash "acme123" = false
  /\ getClientDataPath app_dir "acme123" = "/srv/app/data/acme123.json".
Proof.
  split; [reflexivity|].
  destruct (X1_id_without_slash_stays_in_data_dir app_dir "acme123" eq_refl)
    as [-> _].
  reflexivity.
Defined.

(** X2.  Two different client identifiers without ["/"] resolve to two
    different files: no two such clients share a document. *)
Theorem X2_distinct_ids_distinct_files dirname id1 id2 :
  contains_slash id1 = false -> contains_slash id2 = false ->
  id1 <> id2 ->
  getClientDataPath dirname id1 <> getClientDataPath dirname id2.
Proof.
  intros H1 H2 Hne. rewrite !getClientDataPath_simple by assumption.
  intros H. apply append_inv_head, append_inv_head in H.
  by apply append_inv_tail in H.
Qed.

Lemma X2_distinct_ids_witness :
  "acme123" <> "ab"
  /\ getClientDataPath app_dir "acme123" <> getClientDataPath app_dir "ab".
Proof.
  assert ("acme123" <> "ab") as Hne by discriminate.
  split; [exact Hne|].
  exact (X2_distinct_ids_distinct_files app_dir "acme123" "ab" eq_refl eq_refl Hne).
Defined.

(** X3.  [POST /api/client] changes at most one file, and only by creating
    it: the file [<clientId>.json] of the validated identifier, directly
    inside the data directory.  It overwrites nothing, whatever the body
    holds. *)
Theorem X3_post_client_creates_one_file dirname is_uri joi_message d body wok p :
  (postClient dirname is_uri joi_message d body wok).2 !! p <> d !! p ->
  exists clientId,
    body !! "clientId" = Some (JStr clientId)
    /\ p = DATA_DIR dirname +:+ "/" +:+ clientId +:+ ".json"
    /\ inside_root (DATA_DIR dirname) p = true
    /\ d !! p = None.
Proof.
  unfold postClient.
  destruct (clientCreateSchema is_uri body) eqn:Hschema; [|by intros []].
  destruct (create_schema_fields _ _ Hschema) as [(clientId & -> & Halnum & _) _].
  assert (contains_slash clientId = false) as Hslash
    by by apply (all_chars_no_slash is_alphanum_char).
  unfold createClient, writeClientData.
  destruct (pathExists d (getClientDataPath dirname clientId)) eqn:Hexists;
    [by intros []|].
  destruct wok; [|by intros []]. simpl.
  destruct (decide (getClientDataPath dirname clientId = p)) as [<-|Hp];
    [|by rewrite lookup_insert_ne].
  intros _. exists clientId. split; [reflexivity|].
  rewrite getClientDataPath_simple in * by assumption.
  split; [reflexivity|]. split; [apply inside_root_below|].
  unfold pathExists in Hexists. by destruct (d !! _).
Qed.

Lemma X3_post_client_witness :
  (postClient app_dir https_uri first_error fresh_disk acme_create true).2
    !! "/srv/app/data/acme123.json"
  <> fresh_disk !! "/srv/app/data/acme123.json"
  /\ fresh_disk !! "/srv/app/data/acme123.json" = None
  /\ inside_root (DATA_DIR app_dir) "/srv/app/data/acme123.json" = true.
Proof.
  assert ((postClient app_dir https_uri first_error fresh_disk acme_create true).2
            !! "/srv/app/data/acme123.json"
          <> fresh_disk !! "/srv/app/data/acme123.json") as Hchanged
    by (vm_compute; discriminate).
  destruct (X3_post_client_creates_one_file app_dir https_uri first_error
              fresh_disk acme_create true "/srv/app/data/acme123.json" Hchanged)
    as (clientId & _ & _ & Hinside & Hnew).
  split; [exact Hchanged|]. split; [exact Hnew|exact Hinside].
Defined.

(** X4.  A seed name accepted by the create schema ([[\w.-]+.json])
    passes the path test of the seed loader and names a file directly in
    the data directory, which is the file the loader reads: when it parses
    with a [reviews] array, that array is the result. *)
Theorem X4_valid_seed_name_is_read dirname d s :
  is_json_file_name s = true ->
  seed_path dirname (Some s) = DATA_DIR dirname +:+ "/" +:+ s
  /\ String.prefix (DATA_DIR dirname) (seed_path dirname (Some s)) = true
  /\ inside_root (DATA_DIR dirname) (seed_path dirname (Some s)) = true
  /\ (forall data l,
        d !! (DATA_DIR dirname +:+ "/" +:+ s) = Some (Parsed data) ->
        prop data "reviews" = Some (JArr l) ->
        getReviewsFromFile dirname d (Some s) = JArr l).
Proof.
  intros Hname. destruct (json_file_name_simple _ Hname) as [Hsimple Hne].
  assert (seed_path dirname (Some s) = DATA_DIR dirname +:+ "/" +:+ s) as Hpath.
  { unfold seed_path. destruct (String.eqb_spec s ""); [contradiction|].
    by apply join_data_dir. }
  split; [exact Hpath|]. split; [rewrite Hpath; apply prefix_append|].
  split; [rewrite Hpath; apply inside_root_below|].
  intros data l Hd Hl. rewrite getReviewsFromFile_unfold, Hpath, prefix_append.
  simpl. by rewrite (read_reviews_array _ _ _ _ _ Hd Hl).
Qed.

Lemma X4_valid_seed_name_witness :
  is_json_file_name "sample-reviews-200.json" = true
  /\ getReviewsFromFile app_dir fresh_disk (Some "sample-reviews-200.json")
     = JArr [JStr "Good"; JStr "Bad"].
Proof.
  split; [reflexivity|].
  destruct (X4_valid_seed_name_is_read app_dir fresh_disk
              "sample-reviews-200.json" eq_refl) as (_ & _ & _ & Hread).
  apply (Hread (JObj {[ "reviews" := JArr [JStr "Good"; JStr "Bad"] ]}));
    reflexivity.
Defined.

(** X5.  Identifiers are unique: once [createClient] has created a
    client, creating it again answers 409, whatever the second request
    holds, and leaves the document of the first as it is. *)
Theorem X5_create_twice_conflicts dirname d clientId seed details seed' details' wok :
  pathExists d (getClientDataPath dirname clientId) = false ->
  createClient dirname
    (createClient dirname d clientId seed details true).2
    clientId seed' details' wok
  = (Respond 409 (message "Client ID already exists."),
     (createClient dirname d clientId seed details true).2).
Proof.
  intros Hnew. unfold createClient at 2 3, writeClientData. rewrite Hnew. simpl.
  unfold createClient. by rewrite pathExists_written.
Qed.

Lemma X5_create_twice_witness :
  pathExists fresh_disk (getClientDataPath app_dir "acme123") = false
  /\ (createClient app_dir
        (createClient app_dir fresh_disk "acme123" None
           {[ "clientName" := JStr "Acme" ]} true).2
        "acme123" (Some "other.json") {[ "clientName" := JStr "Other" ]} true).1
     = Respond 409 (message "Client ID already exists.").
Proof.
  split; [reflexivity|].
  rewrite (X5_create_twice_conflicts app_dir fresh_disk "acme123" None
             {[ "clientName" := JStr "Acme" ]} (Some "other.json")
             {[ "clientName" := JStr "Other" ]} true eq_refl).
  reflexivity.
Defined.

(** X6.  What the seed loader returned is what [listReviews] answers for
    the client just created: the loader's result is never falsy, so the
    [reviews || []] of the listing does not replace it. *)
Theorem X6_list_reviews_after_create dirname d clientId seed details :
  pathExists d (getClientDataPath dirname clientId) = false ->
  listReviews dirname (createClient dirname d clientId seed details true).2
    clientId
  = Respond 200 (JObj {[ "reviews" := getReviewsFromFile dirname d seed ]}).
Proof.
  intros Hnew. unfold createClient, writeClientData. rewrite Hnew. simpl.
  unfold listReviews. rewrite getClientData_written. simpl.
  by rewrite lookup_insert_eq, getReviewsFromFile_truthy.
Qed.

Lemma X6_list_reviews_after_create_witness :
  pathExists fresh_disk (getClientDataPath app_dir "acme123") = false
  /\ listReviews app_dir
       (createClient app_dir fresh_disk "acme123" None
          {[ "clientName" := JStr "Acme" ]} true).2 "acme123"
     = Respond 200 (JObj {[ "reviews" := JArr [JStr "Good"; JStr "Bad"] ]}).
Proof.
  split; [reflexivity|].
  rewrite (X6_list_reviews_after_create app_dir fresh_disk "acme123" None
             {[ "clientName" := JStr "Acme" ]} eq_refl).
  reflexivity.
Defined.

(** X7.  [deleteClient] answers 404 and removes nothing when the file of
    the client does not exist, and 500, removing nothing, when [fs.remove]
    fails.  When it succeeds it answers 204; the client then has no
    document ([listReviews] answers 404, [createClient] no longer
    conflicts), and every path that is neither the file nor below it is as
    it was. *)
Theorem X7_delete_client dirname d clientId :
  (pathExists d (getClientDataPath dirname clientId) = false ->
   forall rok,
     deleteClient dirname d clientId rok
     = ((404, Some (message "Client not found.")), d))
  /\ (pathExists d (getClientDataPath dirname clientId) = true ->
      deleteClient dirname d clientId false
      = ((500, Some (message "Error deleting client file.")), d)
      /\ exists d',
          deleteClient dirname d clientId true = ((204, None), d')
          /\ pathExists d' (getClientDataPath dirname clientId) = false
          /\ listReviews dirname d' clientId
             = Respond 404 (message "Client not found.")
          /\ (forall p,
                p <> getClientDataPath dirname clientId ->
                below (getClientDataPath dirname clientId) p = false ->
                d' !! p = d !! p)).
Proof.
  unfold deleteClient. split; intros ->; simpl; [reflexivity|].
  split; [reflexivity|]. eexists. split; [reflexivity|].
  assert (pathExists (remove d (getClientDataPath dirname clientId))
            (getClientDataPath dirname clientId) = false) as Hgone
    by apply pathExists_false, lookup_remove_eq.
  split; [exact Hgone|]. split.
  - unfold listReviews, getClientData. by rewrite Hgone.
  - intros p Hp Hbelow. by apply lookup_remove_other.
Qed.

Lemma X7_delete_client_witness :
  (pathExists fresh_disk (getClientDataPath app_dir "acme123") = false
   /\ deleteClient app_dir fresh_disk "acme123" true
      = ((404, Some (message "Client not found.")), fresh_disk))
  /\ pathExists acme_disk (getClientDataPath app_dir "acme123") = true
  /\ exists d',
       deleteClient app_dir acme_disk "acme123" true = ((204, None), d')
       /\ listReviews app_dir d' "acme123"
          = Respond 404 (message "Client not found.").
Proof.
  destruct (X7_delete_client app_dir fresh_disk "acme123") as [Hmissing _].
  destruct (X7_delete_client app_dir acme_disk "acme123") as [_ Hthere].
  destruct (Hthere eq_refl) as (_ & d' & Hdel & _ & Hlist & _).
  split; [split; [reflexivity|exact (Hmissing eq_refl true)]|].
  split; [reflexivity|]. exists d'. split; [exact Hdel|exact Hlist].
Defined.

(** X8.  Creating a client and deleting it gives the disk back: when the
    file of the client does not exist and nothing lies below its path,
    [deleteClient] after [createClient] returns the disk [createClient]
    started from. *)
Theorem X8_create_then_delete dirname d clientId seed details :
  pathExists d (getClientDataPath dirname clientId) = false ->
  (forall p, below (getClientDataPath dirname clientId) p = true -> d !! p = None) ->
  deleteClient dirname (createClient dirname d clientId seed details true).2
    clientId true
  = ((204, None), d).
Proof.
  intros Hnew Hleaf. unfold createClient, writeClientData. rewrite Hnew. simpl.
  unfold deleteClient. rewrite pathExists_written. simpl. f_equal.
  apply map_eq. intros p.
  destruct (decide (p = getClientDataPath dirname clientId)) as [->|Hp].
  - rewrite lookup_remove_eq. symmetry. by apply pathExists_false.
  - destruct (below (getClientDataPath dirname clientId) p) eqn:Hb.
    + rewrite lookup_remove_below by assumption. symmetry. by apply Hleaf.
    + rewrite lookup_remove_other by assumption. by rewrite lookup_insert_ne.
Qed.

Lemma X8_create_then_delete_witness :
  pathExists fresh_disk (getClientDataPath app_dir "acme123") = false
  /\ deleteClient app_dir
       (createClient app_dir fresh_disk "acme123" None
          {[ "clientName" := JStr "Acme" ]} true).2 "acme123" true
     = ((204, None), fresh_disk).
Proof.
  split; [reflexivity|].
  exact (X8_create_then_delete app_dir fresh_disk "acme123" None
           {[ "clientName" := JStr "Acme" ]} eq_refl nothing_below_acme).
Defined.

(** X9.  What [POST /api/client] stored is what [GET /api/client/:clientId]
    gives back: after a 201 answer, the details of the new client are the
    posted body without its [sourceReviewFile], and without the reviews the
    document was seeded with. *)
Theorem X9_detail_after_post dirname is_uri joi_message d body doc d' clientId :
  postClient dirname is_uri joi_message d body true = (Respond 201 doc, d') ->
  body !! "clientId" = Some (JStr clientId) ->
  getClientDetail dirname d' clientId
  = Respond 200 (JObj (delete "sourceReviewFile" body)).
Proof.
  intros Hpost Hid.
  destruct (post_client_created _ _ _ _ _ _ _ Hpost)
    as (clientId' & seed & Hschema & Hid' & _ & -> & ->).
  assert (clientId' = clientId) as -> by congruence.
  unfold getClientDetail. rewrite getClientData_written. simpl.
  rewrite delete_insert_eq, delete_id; [reflexivity|].
  rewrite lookup_delete_ne by done.
  destruct (body !! "reviews") as [v|] eqn:Hv; [|reflexivity].
  unfold clientCreateSchema in Hschema.
  do 7 (apply andb_true_iff in Hschema as [Hschema _]).
  by apply (allowed_keys_lookup _ _ _ _ Hschema) in Hv.
Qed.

Lemma X9_detail_after_post_witness :
  exists doc d',
    postClient app_dir https_uri first_error fresh_disk acme_create true
    = (Respond 201 doc, d')
    /\ getClientDetail app_dir d' "acme123"
       = Respond 200 (JObj (delete "sourceReviewFile" acme_create)).
Proof.
  exists (JObj (<["reviews" := JArr [JStr "Good"; JStr "Bad"]]>
                  (<["clientId" := JStr "acme123"]> acme_update))),
    (<["/srv/app/data/acme123.json" :=
         Parsed (JObj (<["reviews" := JArr [JStr "Good"; JStr "Bad"]]>
                         (<["clientId" := JStr "acme123"]> acme_update)))]>
       fresh_disk).
  assert (postClient app_dir https_uri first_error fresh_disk acme_create true
          = (Respond 201
               (JObj (<["reviews" := JArr [JStr "Good"; JStr "Bad"]]>
                        (<["clientId" := JStr "acme123"]> acme_update))),
             <["/srv/app/data/acme123.json" :=
                 Parsed (JObj (<["reviews" := JArr [JStr "Good"; JStr "Bad"]]>
                                 (<["clientId" := JStr "acme123"]> acme_update)))]>
               fresh_disk)) as Hpost by reflexivity.
  split; [exact Hpost|].
  exact (X9_detail_after_post app_dir https_uri first_error fresh_disk
           acme_create _ _ "acme123" Hpost eq_refl).
Defined.

(** X10.  Adding or deleting a review changes nothing of what
    [GET /api/client/:clientId] answers: the details of a client do not
    depend on its review list. *)
Theorem X10_reviews_leave_details dirname d clientId review wok r d' :
  addReview dirname d clientId review wok = Some (r, d')
  \/ deleteReview dirname d clientId (Some review) wok = Some (r, d') ->
  getClientDetail dirname d' clientId = getClientDetail dirname d clientId.
Proof.
  assert (forall v,
            getClientDetail dirname
              (<[getClientDataPath dirname clientId :=
                   Parsed (set_prop (getClientData dirname d clientId) "reviews" v)]> d)
              clientId
            = getClientDetail dirname d clientId) as Hwritten.
  { intros v. unfold getClientDetail. rewrite getClientData_written.
    by rewrite truthy_set_prop, details_set_reviews. }
  unfold addReview, deleteReview, writeClientData. intros [H|H].
  - destruct (truthy (getClientData dirname d clientId)); simpl in H;
      [|by injection H as _ <-].
    destruct (reviews_or_empty _) as [l|]; [|discriminate]. simpl in H.
    destruct wok; injection H as _ <-; [apply Hwritten|reflexivity].
  - destruct (truthy review); simpl in H; [|by injection H as _ <-].
    destruct (truthy (getClientData dirname d clientId)); simpl in H;
      [|by injection H as _ <-].
    destruct (reviews_or_empty _) as [l|]; [|discriminate]. simpl in H.
    destruct (indexOf l review); [|by injection H as _ <-].
    destruct wok; injection H as _ <-; [apply Hwritten|reflexivity].
Qed.

Lemma X10_reviews_leave_details_witness :
  exists d',
    addReview app_dir acme_disk "acme123" (JStr "Superb") true
    = Some (Respond 201 (JObj {[ "review" := JStr "Superb" ]}), d')
    /\ getClientDetail app_dir d' "acme123"
       = getClientDetail app_dir acme_disk "acme123".
Proof.
  exists (<["/srv/app/data/acme123.json" :=
             Parsed (set_prop acme_doc "reviews"
                       (JArr [JStr "Superb"; JStr "Good"; JStr "Bad"; JStr "Good"]))]>
            acme_disk).
  assert (addReview app_dir acme_disk "acme123" (JStr "Superb") true
          = Some (Respond 201 (JObj {[ "review" := JStr "Superb" ]}),
                  <["/srv/app/data/acme123.json" :=
                      Parsed (set_prop acme_doc "reviews"
                                (JArr [JStr "Superb"; JStr "Good"; JStr "Bad";
                                       JStr "Good"]))]> acme_disk)) as Hadd
    by reflexivity.
  split; [exact Hadd|].
  exact (X10_reviews_leave_details app_dir acme_disk "acme123" (JStr "Superb")
           true _ _ (or_introl Hadd)).
Defined.



(** X12.  Every handler that writes works on the file of its client and
    on no other: whatever the request and its outcome, a path that is not
    [getClientDataPath clientId] (nor, for the removal, below it) holds
    after the request what it held before. *)
Theorem X12_handlers_touch_one_file dirname d clientId p :
  p <> getClientDataPath dirname clientId ->
  (forall seed details wok,
     (createClient dirname d clientId seed details wok).2 !! p = d !! p)
  /\ (forall body wok,
        (updateClient dirname d clientId body wok).2 !! p = d !! p)
  /\ (forall review wok r d',
        addReview dirname d clientId review wok = Some (r, d') ->
        d' !! p = d !! p)
  /\ (forall review wok r d',
        deleteReview dirname d clientId review wok = Some (r, d') ->
        d' !! p = d !! p)
  /\ (forall rok,
        below (getClientDataPath dirname clientId) p = false ->
        (deleteClient dirname d clientId rok).2 !! p = d !! p).
Proof.
  intros Hp.
  assert (forall data wok,
            (writeClientData dirname d clientId data wok).2 !! p = d !! p)
    as Hwrite.
  { intros data [|]; simpl; [|reflexivity]. by rewrite lookup_insert_ne. }
  repeat split.
  - intros seed details wok. unfold createClient.
    destruct (pathExists d _); [reflexivity|]. cbv zeta.
    specialize (Hwrite
      (JObj (<["reviews" := getReviewsFromFile dirname d seed]>
               (<["clientId" := JStr clientId]> (spread ∅ details)))) wok).
    by destruct (writeClientData _ _ _ _ _) as [[|] ?].
  - intros body wok. unfold updateClient.
    destruct (negb _); [reflexivity|]. cbv zeta.
    specialize (Hwrite
      (JObj (<["clientId" := JStr clientId]>
               (spread (spread ∅ (own_props (getClientData dirname d clientId)))
                  body))) wok).
    by destruct (writeClientData _ _ _ _ _) as [[|] ?].
  - intros review wok r d'. unfold addReview.
    destruct (negb _); [by intros [= _ <-]|].
    destruct (reviews_or_empty _) as [l|]; [|discriminate]. simpl.
    specialize (Hwrite
      (set_prop (getClientData dirname d clientId) "reviews" (JArr (review :: l)))
      wok).
    destruct (writeClientData _ _ _ _ _) as [[|] ?]; by intros [= _ <-].
  - intros [review|] wok r d'; unfold deleteReview; [|by intros [= _ <-]].
    destruct (negb (truthy review)); [by intros [= _ <-]|].
    destruct (negb _); [by intros [= _ <-]|].
    destruct (reviews_or_empty _) as [l|]; [|discriminate]. simpl.
    destruct (indexOf l review) as [i|]; [|by intros [= _ <-]].
    specialize (Hwrite
      (set_prop (getClientData dirname d clientId) "reviews" (JArr (splice1 l i)))
      wok).
    destruct (writeClientData _ _ _ _ _) as [[|] ?]; by intros [= _ <-].
  - intros rok Hbelow. unfold deleteClient.
    destruct (negb _); [reflexivity|]. destruct rok; [|reflexivity].
    by apply lookup_remove_other.
Qed.

Lemma X12_handlers_touch_one_file_witness :
  "/srv/app/data/sample-reviews-200.json" <> getClientDataPath app_dir "acme123"
  /\ (updateClient app_dir acme_disk "acme123" acme_update true).2
       !! "/srv/app/data/sample-reviews-200.json"
     = Some sample_seed.
Proof.
  assert ("/srv/app/data/sample-reviews-200.json"
          <> getClientDataPath app_dir "acme123") as Hother
    by (vm_compute; discriminate).
  split; [exact Hother|].
  destruct (X12_handlers_touch_one_file app_dir acme_disk "acme123" _ Hother)
    as (_ & Hupdate & _).
  rewrite Hupdate. reflexivity.
Defined.

(** X13.  Deleting the review just posted gives the disk back: when the
    document of the client is an object with a [reviews] array and
    [POST /api/client/:clientId/reviews] has answered 201, the
    [DELETE] of the same text finds it, answers 200 and leaves the store
    as it was before the two requests. *)
Theorem X13_post_review_then_delete dirname joi_message d clientId body review
    f l r d' :
  d !! getClientDataPath dirname clientId = Some (Parsed (JObj f)) ->
  f !! "reviews" = Some (JArr l) ->
  body !! "review" = Some review ->
  postReview dirname joi_message d clientId body true = Some (Respond 201 r, d') ->
  deleteReview dirname d' clientId (Some review) true
  = Some (Respond 200 (message "Review deleted."), d).
Proof.
  intros Hd Hl Hreview. unfold postReview.
  destruct (addReviewSchema body) eqn:Hschema; [|discriminate].
  rewrite Hreview. unfold addReviewSchema in Hschema.
  apply andb_true_iff in Hschema as [_ Hkey].
  apply string_key_required in Hkey as (s & Hs & Hlen).
  assert (review = JStr s) as -> by congruence.
  apply andb_true_iff in Hlen as [Hmin _]. apply Nat.leb_le in Hmin.
  assert (s <> "") as Hne by (intros ->; simpl in Hmin; lia).
  unfold addReview. rewrite (getClientData_stored _ _ _ _ Hd). simpl.
  rewrite Hl. simpl. intros [= _ <-].
  unfold deleteReview.
  destruct (String.eqb_spec s "") as [|_]; [contradiction|]. simpl.
  rewrite getClientData_written. simpl. rewrite lookup_insert_eq. simpl.
  rewrite String.eqb_refl. simpl. unfold splice1. simpl. rewrite drop_0.
  rewrite insert_insert_eq, (insert_insert_eq f), (insert_id f) by assumption.
  by rewrite insert_id.
Qed.

Lemma X13_post_review_then_delete_witness :
  exists d',
    postReview app_dir first_error acme_disk "acme123"
      {[ "review" := JStr "Superb" ]} true
    = Some (Respond 201 (JObj {[ "review" := JStr "Superb" ]}), d')
    /\ deleteReview app_dir d' "acme123" (Some (JStr "Superb")) true
       = Some (Respond 200 (message "Review deleted."), acme_disk).
Proof.
  exists (<["/srv/app/data/acme123.json" :=
             Parsed (set_prop acme_doc "reviews"
                       (JArr [JStr "Superb"; JStr "Good"; JStr "Bad"; JStr "Good"]))]>
            acme_disk).
  assert (postReview app_dir first_error acme_disk "acme123"
            {[ "review" := JStr "Superb" ]} true
          = Some (Respond 201 (JObj {[ "review" := JStr "Superb" ]}),
                  <["/srv/app/data/acme123.json" :=
                      Parsed (set_prop acme_doc "reviews"
                                (JArr [JStr "Superb"; JStr "Good"; JStr "Bad";
                                       JStr "Good"]))]> acme_disk)) as Hpost
    by reflexivity.
  split; [exact Hpost|].
  exact (X13_post_review_then_delete app_dir first_error acme_disk "acme123"
           {[ "review" := JStr "Superb" ]} (JStr "Superb")
           (<["reviews" := JArr [JStr "Good"; JStr "Bad"; JStr "Good"]]>
              (<["clientName" := JStr "Acme"]> {[ "clientId" := JStr "acme123" ]}))
           [JStr "Good"; JStr "Bad"; JStr "Good"] _ _
           eq_refl eq_refl eq_refl Hpost).
Defined.

(** X14.  A file that is there and holds no document (it does not parse,
    or parses to a falsy value such as [null]) makes the routes disagree:
    those that read the document answer that the client is not found,
    [createClient] answers that it already exists and writes nothing, and
    [deleteClient] removes the file. *)
Theorem X14_file_without_document dirname d clientId c :
  d !! getClientDataPath dirname clientId = Some c ->
  falsy_content c = true ->
  getClientDetail dirname d clientId = Respond 404 (message "Client not found.")
  /\ listReviews dirname d clientId = Respond 404 (message "Client not found.")
  /\ (forall review wok,
        addReview dirname d clientId review wok
        = Some (Respond 404 (message "Client not found."), d))
  /\ (forall seed details wok,
        createClient dirname d clientId seed details wok
        = (Respond 409 (message "Client ID already exists."), d))
  /\ (deleteClient dirname d clientId true).1 = (204, None).
Proof.
  intros Hd Hc. pose proof (getClientData_falsy _ _ _ _ Hd Hc) as Hdata.
  assert (pathExists d (getClientDataPath dirname clientId) = true) as Hexists
    by (unfold pathExists; by rewrite Hd).
  unfold getClientDetail, listReviews, addReview, createClient, deleteClient.
  rewrite Hdata, Hexists. by repeat split.
Qed.

Lemma X14_file_without_document_witness :
  broken_disk !! getClientDataPath app_dir "acme123" = Some Unreadable
  /\ getClientDetail app_dir broken_disk "acme123"
     = Respond 404 (message "Client not found.")
  /\ createClient app_dir broken_disk "acme123" None
       {[ "clientName" := JStr "Acme" ]} true
     = (Respond 409 (message "Client ID already exists."), broken_disk).
Proof.
  destruct (X14_file_without_document app_dir broken_disk "acme123" Unreadable
              eq_refl eq_refl) as (Hdetail & _ & _ & Hcreate & _).
  split; [reflexivity|]. split; [exact Hdetail|apply Hcreate].
Defined.

(** X15.  A client that [POST /api/client] has created is listed: after
    a 201 answer, [GET /api/clients] holds the summary made of the posted
    [clientId] and [clientName]. *)
Theorem X15_created_client_is_listed dirname is_uri joi_message d body doc d' :
  postClient dirname is_uri joi_message d body true = (Respond 201 doc, d') ->
  exists clientId clientName summaries,
    body !! "clientId" = Some (JStr clientId)
    /\ body !! "clientName" = Some (JStr clientName)
    /\ listClients dirname d' true = Respond 200 (JArr summaries)
    /\ In (JObj (<["clientName" := JStr clientName]>
                   {[ "clientId" := JStr clientId ]})) summaries.
Proof.
  intros Hpost.
  destruct (post_client_created _ _ _ _ _ _ _ Hpost)
    as (clientId & seed & Hschema & Hid & _ & -> & ->).
  destruct (create_schema_fields _ _ Hschema)
    as [(clientId' & Hid' & Halnum & Hlen & _) _].
  assert (clientId' = clientId) as -> by congruence.
  destruct (create_schema_name _ _ Hschema) as (clientName & Hname & Hne).
  exists clientId, clientName. eexists. do 2 (split; [assumption|]).
  unfold listClients. split; [reflexivity|].
  rewrite omap_id_map. apply list_elem_of_In, list_elem_of_omap.
  exists (clientId +:+ ".json").
  assert (contains_slash clientId = false) as Hslash
    by by apply (all_chars_no_slash is_alphanum_char).
  split.
  - apply list_elem_of_In, filter_In. split; [|apply endsWith_append].
    apply elem_of_readdir. rewrite contains_slash_append, Hslash.
    split; [reflexivity|]. split.
    + intros E. apply (f_equal String.length) in E.
      rewrite length_append in E. simpl in E. lia.
    + rewrite <- getClientDataPath_simple by assumption.
      rewrite lookup_insert_eq. by eexists.
  - rewrite replace_first_alphanum by assumption.
    rewrite getClientData_written. simpl.
    rewrite !lookup_insert_ne by done.
    rewrite !lookup_delete_ne by done. rewrite Hid, Hname.
    rewrite (truthy_text clientName) by assumption.
    rewrite truthy_text; [reflexivity|]. intros ->. simpl in Hlen. lia.
Qed.

Lemma X15_created_client_witness :
  exists doc d' summaries,
    postClient app_dir https_uri first_error fresh_disk acme_create true
    = (Respond 201 doc, d')
    /\ listClients app_dir d' true = Respond 200 (JArr summaries)
    /\ In (JObj (<["clientName" := JStr "Acme Ltd"]>
                   {[ "clientId" := JStr "acme123" ]})) summaries.
Proof.
  assert (postClient app_dir https_uri first_error fresh_disk acme_create true
          = (Respond 201
               (JObj (<["reviews" := JArr [JStr "Good"; JStr "Bad"]]>
                        (<["clientId" := JStr "acme123"]> acme_update))),
             <["/srv/app/data/acme123.json" :=
                 Parsed (JObj (<["reviews" := JArr [JStr "Good"; JStr "Bad"]]>
                                 (<["clientId" := JStr "acme123"]> acme_update)))]>
               fresh_disk)) as Hpost by reflexivity.
  destruct (X15_created_client_is_listed app_dir https_uri first_error
              fresh_disk acme_create _ _ Hpost)
    as (clientId & clientName & summaries & Hid & Hname & Hlist & Hin).
  injection Hid as <-. injection Hname as <-.
  eexists _, _, summaries. split; [exact Hpost|]. split; [exact Hlist|exact Hin].
Defined.

(** X16.  [GET /api/data-files] answers with the names of the entries that
    lie directly in the data directory and end with [".json"], client
    documents included; and each name it offers is one the seed loader
    resolves to that very file, inside the data directory. *)
Theorem X16_data_files dirname d :
  exists names,
    listDataFiles dirname d true = Respond 200 (JArr (map JStr names))
    /\ (forall name,
          In name names
          <-> contains_slash name = false /\ endsWith name ".json" = true
              /\ is_Some (d !! (DATA_DIR dirname +:+ "/" +:+ name)))
    /\ (forall name,
          In name names ->
          seed_path dirname (Some name) = DATA_DIR dirname +:+ "/" +:+ name
          /\ String.prefix (DATA_DIR dirname) (seed_path dirname (Some name))
             = true).
Proof.
  eexists. split; [reflexivity|].
  assert (forall name,
            In name
              (List.filter (fun file => endsWith file ".json")
                 (readdir d (DATA_DIR dirname)))
            <-> contains_slash name = false /\ endsWith name ".json" = true
                /\ is_Some (d !! (DATA_DIR dirname +:+ "/" +:+ name))) as Hin.
  { intros name. rewrite filter_In, elem_of_readdir. split.
    - intros [(Hslash & _ & Hfile) Hjson]. by repeat split.
    - intros (Hslash & Hjson & Hfile). repeat split; try assumption.
      intros ->. discriminate Hjson. }
  split; [exact Hin|]. intros name Hname. apply Hin in Hname as (Hslash & Hjson & _).
  destruct (endsWith_json _ Hjson) as [Hlen _].
  assert (seed_path dirname (Some name) = DATA_DIR dirname +:+ "/" +:+ name)
    as Hpath.
  { unfold seed_path. destruct (String.eqb_spec name "") as [->|_];
      [simpl in Hlen; lia|].
    apply join_data_dir, simple_name_long; [assumption|lia]. }
  split; [exact Hpath|]. rewrite Hpath. apply prefix_append.
Qed.

(** X17.  The bodies of [POST /api/client] and [PUT /api/client/:clientId]
    hold the fields of their schemas and nothing else: with any other key,
    [reviews] for one, [validateBody] answers 400 and the handler is not
    run, so nothing is written. *)
Theorem X17_unknown_key_is_rejected dirname is_uri joi_message d clientId body k v wok :
  body !! k = Some v ->
  mem_string k
    ["clientId"; "clientName"; "googleReviewLink"; "logoUrl"; "primaryColor";
     "secondaryColor"; "sourceReviewFile"] = false ->
  postClient dirname is_uri joi_message d body wok
  = (Respond 400 (message (joi_message (clientCreateSchema is_uri) body)), d)
  /\ putClient dirname is_uri joi_message d clientId body wok
     = (Respond 400 (message (joi_message (clientUpdateSchema is_uri) body)), d).
Proof.
  intros Hk Hmem. split.
  - unfold postClient.
    destruct (clientCreateSchema is_uri body) eqn:Hschema; [|reflexivity].
    unfold clientCreateSchema in Hschema.
    do 7 (apply andb_true_iff in Hschema as [Hschema _]).
    apply (allowed_keys_lookup _ _ _ _ Hschema) in Hk. congruence.
  - unfold putClient.
    destruct (clientUpdateSchema is_uri body) eqn:Hschema; [|reflexivity].
    apply mem_update_keys in Hmem.
    rewrite (schema_excludes _ _ _ Hschema Hmem) in Hk. discriminate.
Qed.

Lemma X17_unknown_key_witness :
  putClient app_dir https_uri first_error acme_disk "acme123"
    (<["reviews" := JArr []]> acme_update) true
  = (Respond 400 (message "The request body is not valid."), acme_disk).
Proof.
  destruct (X17_unknown_key_is_rejected app_dir https_uri first_error acme_disk
              "acme123" (<["reviews" := JArr []]> acme_update) "reviews" (JArr [])
              true (lookup_insert_eq acme_update "reviews" (JArr [])) eq_refl)
    as [_ Hput].
  exact Hput.
Defined.

(** X18.  The review links [generate-qr] hands out tell the clients
    apart: when the encoder succeeds for two different clients, the two
    answers carry different [link]s; and the picture of an answer is the
    encoding of its link. *)
Theorem X18_qr_links_distinct toDataURL env_base env_port id1 id2 body1 body2 :
  generateQr toDataURL env_base env_port id1 = Respond 200 body1 ->
  generateQr toDataURL env_base env_port id2 = Respond 200 body2 ->
  id1 <> id2 ->
  prop body1 "link" <> prop body2 "link"
  /\ exists link,
       prop body1 "link" = Some (JStr link)
       /\ JStr <$> toDataURL link = prop body1 "qrDataUrl".
Proof.
  unfold generateQr.
  destruct (toDataURL (_ +:+ "/review/" +:+ id1)) as [u1|] eqn:H1; [|discriminate].
  destruct (toDataURL (_ +:+ "/review/" +:+ id2)) as [u2|] eqn:H2; [|discriminate].
  intros [= <-] [= <-] Hne. simpl. split.
  - intros [= E]. apply append_inv_head in E. by apply append_inv_head in E.
  - eexists. split; [reflexivity|]. by rewrite H1.
Qed.

Lemma X18_qr_links_witness :
  "acme123" <> "ab"
  /\ exists body1 body2,
       generateQr (fun link => Some ("data:image/png;base64," +:+ link))
         None None "acme123" = Respond 200 body1
       /\ generateQr (fun link => Some ("data:image/png;base64," +:+ link))
            None None "ab" = Respond 200 body2
       /\ prop body1 "link" <> prop body2 "link".
Proof.
  assert ("acme123" <> "ab") as Hne by discriminate.
  split; [exact Hne|]. eexists _, _.
  split; [reflexivity|]. split; [reflexivity|].
  exact (proj1 (X18_qr_links_distinct
                  (fun link => Some ("data:image/png;base64," +:+ link)) None None
                  "acme123" "ab" _ _ eq_refl eq_refl Hne)).
Defined.

(** X19.  The migration sends all or nothing: with [KV_URL] set, one
    listed file that is there and cannot be read, or holds [null], fails
    the run before anything is sent to the store, whatever the other files
    hold; otherwise the commands sent are those of the listed files, in the
    order of the list, and a missing file or a document without [clientId]
    is skipped. *)
Theorem X19_migrate_all_or_nothing dirname url d files exec_ok :
  url <> "" ->
  migrate dirname (Some url) d files exec_ok
  = if existsb (fun file => throws_on d (Path.join (DATA_DIR dirname) file)) files
    then MigrationFailed
    else if exec_ok then Executed (flat_map (commands_of dirname d) files)
         else MigrationFailed.
Proof.
  intros Hurl. unfold migrate.
  destruct (String.eqb_spec url "") as [|_]; [contradiction|].
  rewrite queue_files_commands. by destruct (existsb _ files).
Qed.

Lemma X19_migrate_witness :
  "redis://kv" <> ""
  /\ migrate app_dir (Some "redis://kv") migration_disk clientFiles true
     = Executed [KvSet (JStr "kirtan") kirtan_doc;
                 KvSadd "clients" (JStr "kirtan")]
  /\ migrate app_dir (Some "redis://kv")
       (<["/srv/app/data/Yogesh.json" := Unreadable]> migration_disk)
       clientFiles true
     = MigrationFailed.
Proof.
  assert ("redis://kv" <> "") as Hurl by discriminate.
  split; [exact Hurl|]. split.
  - rewrite (X19_migrate_all_or_nothing app_dir "redis://kv" migration_disk
               clientFiles true Hurl).
    reflexivity.
  - rewrite (X19_migrate_all_or_nothing app_dir "redis://kv" _ clientFiles true
               Hurl).
    reflexivity.
Defined.

(** X20.  What the migration stores comes from the listed files: each
    document is stored under its own [clientId], which is not falsy, is the
    document of one of the listed files, and has its key added to the set
    [clients]; and that set receives nothing but the keys of stored
    documents. *)
Theorem X20_migrated_documents dirname kv_url d files exec_ok commands :
  migrate dirname kv_url d files exec_ok = Executed commands ->
  (forall key value,
     In (KvSet key value) commands ->
     prop value "clientId" = Some key /\ truthy key = true
     /\ In (KvSadd "clients" key) commands
     /\ exists file,
          In file files
          /\ d !! Path.join (DATA_DIR dirname) file = Some (Parsed value))
  /\ (forall set member,
        In (KvSadd set member) commands ->
        set = "clients" /\ exists value, In (KvSet member value) commands).
Proof.
  intros Hrun. apply migrate_executed in Hrun as ->. split.
  - intros key value Hin. apply in_flat_map in Hin as (file & Hfile & Hin).
    destruct (commands_of_inv _ _ _ _ Hin) as (key' & value' & Hd & Hid & Hkey & E).
    rewrite E in Hin. destruct Hin as [[= <- <-]|[[=]|[]]].
    repeat split; try assumption.
    + apply in_flat_map. exists file. split; [assumption|]. rewrite E.
      right. by left.
    + by exists file.
  - intros set member Hin. apply in_flat_map in Hin as (file & Hfile & Hin).
    destruct (commands_of_inv _ _ _ _ Hin) as (key' & value' & Hd & Hid & Hkey & E).
    rewrite E in Hin. destruct Hin as [[=]|[[= <- <-]|[]]].
    split; [reflexivity|]. exists value'. apply in_flat_map. exists file.
    split; [assumption|]. rewrite E. by left.
Qed.

Lemma X20_migrated_documents_witness :
  migrate app_dir (Some "redis://kv") migration_disk clientFiles true
  = Executed [KvSet (JStr "kirtan") kirtan_doc; KvSadd "clients" (JStr "kirtan")]
  /\ prop kirtan_doc "clientId" = Some (JStr "kirtan")
  /\ In (KvSadd "clients" (JStr "kirtan"))
       [KvSet (JStr "kirtan") kirtan_doc; KvSadd "clients" (JStr "kirtan")].
Proof.
  assert (migrate app_dir (Some "redis://kv") migration_disk clientFiles true
          = Executed [KvSet (JStr "kirtan") kirtan_doc;
                      KvSadd "clients" (JStr "kirtan")]) as Hrun by reflexivity.
  destruct (X20_migrated_documents app_dir (Some "redis://kv") migration_disk
              clientFiles true _ Hrun) as [Hset _].
  destruct (Hset (JStr "kirtan") kirtan_doc (or_introl eq_refl))
    as (Hid & _ & Hsadd & _).
  split; [exact Hrun|]. split; [exact Hid|exact Hsadd].
Defined.
